(** * Inventory component of Cpp_InventorySystem

    A shallow embedding of [UCpp_AC_Inventory]
    (Source/Cpp_InventorySystem/Private/Components/Cpp_AC_Inventory.cpp)
    and of the part of [UItemBase] it calls.

    Conventions of the embedding.
    - Objects live in a store ([Objects]); a [UItemBase*] is an optional
      address into it, [None] being [nullptr].  Two pointers to the same
      address denote the same object, so writes through one are seen
      through the other.
    - A member function is a computation in the monad [M]: it reads and
      writes the state and ends either with a value or with [Fault], the
      dereference of a null or dangling pointer.
    - [float] values are IEEE 754 binary32 numbers, with the operations
      of the standard library's [SpecFloat] at precision 24: every sum,
      difference, product and quotient is rounded on its own to nearest,
      ties to even, and may be an infinity or NaN.
    - [int32] values are integers of [Z].  The difference of two
      quantities in [RemoveAmountOfItem], whose operand is the caller's,
      wraps around as the machine's does; [Num() + 1] and the
      difference of a stack size and a quantity are taken as they are,
      Contents and valid items being far from the bounds.
    - [OnInventoryUpdated.Broadcast()] increments a counter. *)

From Stdlib Require Import ZArith Lia Ascii SpecFloat.
From stdpp Require Import base numbers option list strings pretty.

Open Scope Z_scope.

(** ** Machine numbers *)

Module Float32.

Definition float : Type := spec_float.

Definition prec : Z := 24.
Definition emax : Z := 128.

Definition fadd : float -> float -> float := SFadd prec emax.
Definition fsub : float -> float -> float := SFsub prec emax.
Definition fmul : float -> float -> float := SFmul prec emax.
Definition fdiv : float -> float -> float := SFdiv prec emax.

(** [x < y] and [x <= y]; both are false as soon as an operand is NaN. *)
Definition flt : float -> float -> bool := SFltb.
Definition fle : float -> float -> bool := SFleb.

Definition is_nan (x : float) : bool :=
  match x with
  | S754_nan => true
  | _ => false
  end.

(** The values of the type: a finite number has a mantissa of at most 24
    bits, at the exponent of its magnitude. *)
Definition valid (x : float) : bool := valid_binary prec emax x.

(** The values of the type that are numbers: a zero or a finite number,
    no infinity and no NaN. *)
Definition finite (x : float) : bool :=
  match x with
  | S754_zero _ => true
  | S754_finite _ m e => bounded prec emax m e
  | _ => false
  end.

(** [(float) z] for an [int32] value [z]. *)
Definition of_int32 (z : Z) : float := binary_normalize prec emax z 0 false.

(** The constant written [m]e-[k]f in the source: for [m] below 2^24 and
    [k] up to 10 both operands are exact, and the rounded quotient is the
    binary32 number nearest to the decimal. *)
Definition decimal (m k : Z) : float := fdiv (of_int32 m) (of_int32 (10 ^ k)).

Definition INT_MIN : Z := - 2 ^ 31.
Definition INT_MAX : Z := 2 ^ 31 - 1.

Definition int32 (z : Z) : Prop := INT_MIN <= z <= INT_MAX.

(** Two's complement wrap-around of an [int32] result. *)
Definition wrap32 (z : Z) : Z := (z + 2 ^ 31) mod 2 ^ 32 - 2 ^ 31.

(** The integer part towards minus infinity of a finite number. *)
Definition floor (x : float) : option Z :=
  match x with
  | S754_zero _ => Some 0
  | S754_finite s m e => Some (Z.shiftl (cond_Zopp s (Z.pos m)) e)
  | _ => None
  end.

(** [k] right shifts of a mantissa with its round and sticky bits: the
    mantissa is divided by [2 ^ k], and the two bits are clear if they
    were and nothing was lost. *)
Definition shifted (k : Z) (a b : shr_record) : Prop :=
  shr_m b = shr_m a / 2 ^ k
  /\ (shr_m a mod 2 ^ k = 0 -> shr_r a = false -> shr_s a = false ->
      shr_r b = false /\ shr_s b = false).

End Float32.

Export Float32.

(** ** Items *)

Module ItemBase.

Record FItemNumericData := {
  Weight : float;
  MaxStackSize : Z;
  bIsStackable : bool
}.

Record FItemTextData := {
  ItemName : string
}.

Record UItemBase := {
  ID : string;
  Quantity : Z;
  ItemNumericData : FItemNumericData;
  ItemTextData : FItemTextData;
  bIsCopy : bool;
  bIsPickup : bool;
  OwningInventory : option nat
}.

Definition with_Quantity (q : Z) (it : UItemBase) : UItemBase :=
  {| ID := ID it; Quantity := q; ItemNumericData := ItemNumericData it;
     ItemTextData := ItemTextData it; bIsCopy := bIsCopy it;
     bIsPickup := bIsPickup it; OwningInventory := OwningInventory it |}.

Definition with_OwningInventory (o : option nat) (it : UItemBase) : UItemBase :=
  {| ID := ID it; Quantity := Quantity it; ItemNumericData := ItemNumericData it;
     ItemTextData := ItemTextData it; bIsCopy := bIsCopy it;
     bIsPickup := bIsPickup it; OwningInventory := o |}.

(** [FMath::Clamp(X, Min, Max)]. *)
Definition Clamp (x lo hi : Z) : Z := Z.max (Z.min x hi) lo.

(** Modelled from the spec: ItemBase.h and ItemBase.cpp are not among the
    sources.  "GetSingleWeight() -> weight: returns per-unit weight". *)
Definition GetItemSingleWeight (it : UItemBase) : float :=
  Weight (ItemNumericData it).

(** Modelled from the spec: the body of [GetItemStackWeight] is missing.
    An item's total weight is "quantity × per-unit weight"; the quantity
    is an [int32] and the weight a [float], so the product is one of
    floats. *)
Definition GetItemStackWeight (it : UItemBase) : float :=
  fmul (of_int32 (Quantity it)) (Weight (ItemNumericData it)).

(** Modelled from the spec: the body of [SetQuantity] is missing.
    "SetQuantity(n): clamps to [0, maxStackSize] if stackable; sets to 1
    otherwise. No side effects beyond the field." *)
Definition SetQuantity (n : Z) (it : UItemBase) : UItemBase :=
  if bIsStackable (ItemNumericData it)
  then with_Quantity (Clamp n 0 (MaxStackSize (ItemNumericData it))) it
  else with_Quantity 1 it.

(** Modelled from the spec: the body of [IsFullItemStack] is missing.
    "IsFullStack() -> bool: quantity == maxStackSize (stackable only;
    non-stackable items are never full in the stacking sense)". *)
Definition IsFullItemStack (it : UItemBase) : bool :=
  bIsStackable (ItemNumericData it)
  && (Quantity it =? MaxStackSize (ItemNumericData it)).

(** Modelled from the spec: the body of [CreateItemCopy] is missing.
    "CreateCopy() -> Item: produces a new Item with identical
    kind/weight/stack data [...], isCopy = true, no owner."  The source
    calls it without an amount and sets the quantity afterwards; the copy
    is a new object, so it is not a pickup. *)
Definition CreateItemCopy (it : UItemBase) : UItemBase :=
  {| ID := ID it; Quantity := Quantity it; ItemNumericData := ItemNumericData it;
     ItemTextData := ItemTextData it; bIsCopy := true;
     bIsPickup := false; OwningInventory := None |}.

(** Modelled from the spec: the body of [ResetItemFlags] is missing.
    An absorbed instance has "its provenance flags" cleared. *)
Definition ResetItemFlags (it : UItemBase) : UItemBase :=
  {| ID := ID it; Quantity := Quantity it; ItemNumericData := ItemNumericData it;
     ItemTextData := ItemTextData it; bIsCopy := false;
     bIsPickup := false; OwningInventory := OwningInventory it |}.

End ItemBase.

Export ItemBase.

(** ** Result of an add *)

Inductive EItemAddResult := IAR_NoItemAdded | IAR_PartialAmountItemAdded | IAR_AllItemAdded.

(** Modelled from the spec: the declaration of [FItemAddResult] is
    missing.  It carries an "Outcome tag: {AddedNone, AddedSome,
    AddedAll}", "ActualAmountAdded: integer, meaningful for
    AddedSome/AddedAll" and a "Message"; the amount of [AddedNone] is 0
    here. *)
Record FItemAddResult := {
  OperationResult : EItemAddResult;
  ActualAmountAdded : Z;
  ResultMessage : string
}.

Definition AddedNone (msg : string) : FItemAddResult :=
  {| OperationResult := IAR_NoItemAdded; ActualAmountAdded := 0; ResultMessage := msg |}.
Definition AddedSome (n : Z) (msg : string) : FItemAddResult :=
  {| OperationResult := IAR_PartialAmountItemAdded; ActualAmountAdded := n; ResultMessage := msg |}.
Definition AddedAll (n : Z) (msg : string) : FItemAddResult :=
  {| OperationResult := IAR_AllItemAdded; ActualAmountAdded := n; ResultMessage := msg |}.

(** [FText::Format]: [{i}] with a decimal digit [i] is replaced by the
    [i]-th argument. *)
Definition placeholder (d : ascii) : option nat :=
  let n := nat_of_ascii d in
  if ((48 <=? n) && (n <=? 57))%nat then Some (n - 48)%nat else None.

Fixpoint Format (fmt : string) (args : list string) : string :=
  match fmt with
  | EmptyString => EmptyString
  | String c tl =>
      match c, tl with
      | "{"%char, String d (String "}"%char rest) =>
          match placeholder d with
          | Some i => default EmptyString (args !! i) +:+ Format rest args
          | None => String c (Format tl args)
          end
      | _, _ => String c (Format tl args)
      end
  end.

(** ** State and effects *)

Definition UItemPtr := option nat.

Record State := {
  Objects : list UItemBase;
  InventoryContents : list UItemPtr;
  InventoryTotalWeight : float;
  InventorySlotsCapacity : Z;
  InventoryWeightCapacity : float;
  OnInventoryUpdated : nat;
  Owner : option nat;
  This : nat
}.

Definition with_Objects (h : list UItemBase) (s : State) : State :=
  {| Objects := h; InventoryContents := InventoryContents s;
     InventoryTotalWeight := InventoryTotalWeight s;
     InventorySlotsCapacity := InventorySlotsCapacity s;
     InventoryWeightCapacity := InventoryWeightCapacity s;
     OnInventoryUpdated := OnInventoryUpdated s; Owner := Owner s; This := This s |}.

Definition with_Contents (c : list UItemPtr) (s : State) : State :=
  {| Objects := Objects s; InventoryContents := c;
     InventoryTotalWeight := InventoryTotalWeight s;
     InventorySlotsCapacity := InventorySlotsCapacity s;
     InventoryWeightCapacity := InventoryWeightCapacity s;
     OnInventoryUpdated := OnInventoryUpdated s; Owner := Owner s; This := This s |}.

Definition with_TotalWeight (w : float) (s : State) : State :=
  {| Objects := Objects s; InventoryContents := InventoryContents s;
     InventoryTotalWeight := w;
     InventorySlotsCapacity := InventorySlotsCapacity s;
     InventoryWeightCapacity := InventoryWeightCapacity s;
     OnInventoryUpdated := OnInventoryUpdated s; Owner := Owner s; This := This s |}.

Definition with_Updated (n : nat) (s : State) : State :=
  {| Objects := Objects s; InventoryContents := InventoryContents s;
     InventoryTotalWeight := InventoryTotalWeight s;
     InventorySlotsCapacity := InventorySlotsCapacity s;
     InventoryWeightCapacity := InventoryWeightCapacity s;
     OnInventoryUpdated := n; Owner := Owner s; This := This s |}.

Inductive outcome (A : Type) : Type :=
  | Ok (a : A) (s : State)
  | Fault.
Arguments Ok {A} a s.
Arguments Fault {A}.

Definition M (A : Type) : Type := State -> outcome A.

Definition M_ret {A} (a : A) : M A := fun s => Ok a s.

Definition M_bind {A B} (k : A -> M B) (m : M A) : M B :=
  fun s => match m s with
           | Ok a s' => k a s'
           | Fault => Fault
           end.

#[global] Instance M_mret : MRet M := @M_ret.
#[global] Instance M_mbind : MBind M := @M_bind.

Definition gets {A} (f : State -> A) : M A := fun s => Ok (f s) s.
Definition modify (f : State -> State) : M unit := fun s => Ok tt (f s).

(** What a pointer designates in a store; [None] for [nullptr] and for an
    address past the end of the store. *)
Definition peek (h : list UItemBase) (p : UItemPtr) : option UItemBase :=
  match p with
  | Some a => h !! a
  | None => None
  end.

Definition poke (p : UItemPtr) (it : UItemBase) (h : list UItemBase) : list UItemBase :=
  match p with
  | Some a => <[a := it]> h
  | None => h
  end.

(** [*p] as a read. *)
Definition load (p : UItemPtr) : M UItemBase :=
  fun s => match peek (Objects s) p with
           | Some it => Ok it s
           | None => Fault
           end.

(** A write to the members of [*p]. *)
Definition update (p : UItemPtr) (f : UItemBase -> UItemBase) : M unit :=
  it ← load p; modify (fun s => with_Objects (poke p (f it) (Objects s)) s).

(** [NewObject<UItemBase>]: the new object gets the next free address. *)
Definition NewObject (it : UItemBase) : M UItemPtr :=
  fun s => Ok (Some (length (Objects s))) (with_Objects (Objects s ++ [it]) s).

Definition Broadcast : M unit :=
  modify (fun s => with_Updated (S (OnInventoryUpdated s)) s).

(** ** The operations of [TArray] the component uses *)

Module TArray.

#[global] Instance UItemPtr_eq_dec : EqDecision UItemPtr := _.

Definition Num (c : list UItemPtr) : Z := Z.of_nat (length c).

Definition Contains (c : list UItemPtr) (p : UItemPtr) : bool :=
  bool_decide (p ∈ c).

(** First element the predicate accepts; the predicate is a computation,
    since it dereferences. *)
Fixpoint FindByPredicate (c : list UItemPtr) (pred : UItemPtr -> M bool) : M (option UItemPtr) :=
  match c with
  | [] => mret None
  | x :: c' => b ← pred x; if b : bool then mret (Some x) else FindByPredicate c' pred
  end.

(** First element equal to the key.  The elements are pointers and so
    is the key: they are compared as addresses, nothing is read. *)
Definition FindByKey (c : list UItemPtr) (Key : UItemPtr) : option UItemPtr :=
  find (fun Element => bool_decide (Element = Key)) c.

(** Removes the first element equal to [p], if any. *)
Fixpoint RemoveSingle (c : list UItemPtr) (p : UItemPtr) : list UItemPtr :=
  match c with
  | [] => []
  | x :: c' => if bool_decide (x = p) then c' else x :: RemoveSingle c' p
  end.

Definition Add (c : list UItemPtr) (p : UItemPtr) : list UItemPtr := c ++ [p].

End TArray.

(** ** Engine arithmetic *)

(** [UE_SMALL_NUMBER], written 1.e-8f. *)
Definition UE_SMALL_NUMBER : float := S754_finite false 11258999 (-50).

(** [FMath::Abs]. *)
Definition Abs (x : float) : float := SFabs x.

(** [FMath::IsNearlyZero(Value)], with its default tolerance
    [UE_SMALL_NUMBER]. *)
Definition IsNearlyZero (x : float) : bool := fle (Abs x) UE_SMALL_NUMBER.

(** [FMath::FloorToInt], from [float] to [int32].  For a NaN, an
    infinity or a number whose integer part is no [int32] the conversion
    has no defined result; [INT_MIN] stands for it, and nothing below
    depends on that value. *)
Definition FloorToInt (x : float) : Z :=
  match floor x with
  | Some z => if (INT_MIN <=? z) && (z <=? INT_MAX) then z else INT_MIN
  | None => INT_MIN
  end.

(** ** The inventory component *)

Module Inventory.

Definition nonnull (p : UItemPtr) : bool :=
  match p with
  | Some _ => true
  | None => false
  end.

Definition GetWeightCapacity : M float := gets InventoryWeightCapacity.

Definition FindMatchingItem (InItem : UItemPtr) : M UItemPtr :=
  c ← gets InventoryContents;
  if nonnull InItem && TArray.Contains c InItem
  then mret InItem
  else mret None.

Definition FindNextItemByID (InItem : UItemPtr) : M UItemPtr :=
  if nonnull InItem
  then
    c ← gets InventoryContents;
    match TArray.FindByKey c InItem with
    | Some r => mret r
    | None => mret None
    end
  else mret None.

Definition FindNextPartialStack (InItem : UItemPtr) : M UItemPtr :=
  c ← gets InventoryContents;
  Result ← TArray.FindByPredicate c
    (fun InventoryItem =>
       e ← load InventoryItem;
       k ← load InItem;
       mret (String.eqb (ID e) (ID k) && negb (IsFullItemStack e)));
  match Result with
  | Some r => mret r
  | None => mret None
  end.

Definition RemoveSingleInstanceOfItem (ItemToRemove : UItemPtr) : M unit :=
  modify (fun s => with_Contents (TArray.RemoveSingle (InventoryContents s) ItemToRemove) s);;
  Broadcast.

Definition RemoveAmountOfItem (InItem : UItemPtr) (AmountToRemove : Z) : M Z :=
  it ← load InItem;
  let ActualAmountToRemove := Z.min AmountToRemove (Quantity it) in
  update InItem (SetQuantity (wrap32 (Quantity it - ActualAmountToRemove)));;
  it' ← load InItem;
  modify (fun s => with_TotalWeight
            (fsub (InventoryTotalWeight s)
               (fmul (of_int32 ActualAmountToRemove) (GetItemSingleWeight it'))) s);;
  Broadcast;;
  mret ActualAmountToRemove.

Definition AddNewItem (InItem : UItemPtr) (AddAmount : Z) : M unit :=
  it ← load InItem;
  NewItem ← (if bIsCopy it || bIsPickup it
             then update InItem ResetItemFlags;; mret InItem
             else NewObject (CreateItemCopy it));
  this ← gets This;
  update NewItem (with_OwningInventory (Some this));;
  update NewItem (SetQuantity AddAmount);;
  modify (fun s => with_Contents (TArray.Add (InventoryContents s) NewItem) s);;
  new ← load NewItem;
  modify (fun s => with_TotalWeight
            (fadd (InventoryTotalWeight s) (GetItemStackWeight new)) s);;
  Broadcast.

Definition SplitExistingStack (InItem : UItemPtr) (AmountToSplit : Z) : M unit :=
  c ← gets InventoryContents;
  cap ← gets InventorySlotsCapacity;
  if negb (TArray.Num c + 1 >? cap)
  then RemoveAmountOfItem InItem AmountToSplit;; AddNewItem InItem AmountToSplit
  else mret tt.

Definition CalculateWeightAddAmount (InItem : UItemPtr) (AddAmount : Z) : M Z :=
  it ← load InItem;
  cap ← GetWeightCapacity;
  total ← gets InventoryTotalWeight;
  let WeightMaxAddAmount :=
    FloorToInt (fdiv (fsub cap total) (GetItemSingleWeight it)) in
  if WeightMaxAddAmount >=? AddAmount
  then mret AddAmount
  else mret WeightMaxAddAmount.

Definition CalculateNumberForFullStack (StackableItem : UItemPtr) (InitialAddAmount : Z) : M Z :=
  it ← load StackableItem;
  let AddAmountToMakeFullStack := MaxStackSize (ItemNumericData it) - Quantity it in
  mret (Z.min InitialAddAmount AddAmountToMakeFullStack).

Definition HandleNonStackableItems (InItem : UItemPtr) : M FItemAddResult :=
  it ← load InItem;
  total ← gets InventoryTotalWeight;
  cap ← GetWeightCapacity;
  c ← gets InventoryContents;
  slots ← gets InventorySlotsCapacity;
  if IsNearlyZero (GetItemSingleWeight it) || flt (GetItemSingleWeight it) (of_int32 0)
  then mret (AddedNone
               (Format "Could not add {0} to the inventory. Item Has No Weight!"
                  [ItemName (ItemTextData it)]))
  else if flt cap (fadd total (GetItemSingleWeight it))
  then mret (AddedNone
               (Format "Could not add {0} to the inventory. Item overflows weight limit!"
                  [ItemName (ItemTextData it)]))
  else if TArray.Num c + 1 >? slots
  then mret (AddedNone
               (Format "Could not add {0} to the inventory. No Free Inventory Slot!"
                  [ItemName (ItemTextData it)]))
  else
    AddNewItem InItem 1;;
    it' ← load InItem;
    mret (AddedAll 1
            (Format "Successfully added {0} to the inventory!"
               [ItemName (ItemTextData it')])).

Definition HandleStackableItems (InItem : UItemPtr) (AddAmount : Z) : M Z :=
  mret 0.

Definition HandleAddItem (InItem : UItemPtr) : M FItemAddResult :=
  owner ← gets Owner;
  if nonnull owner
  then
    it ← load InItem;
    let InitialRequestedAddAmount := Quantity it in
    if negb (bIsStackable (ItemNumericData it))
    then HandleNonStackableItems InItem
    else
      StackableAmountAdded ← HandleStackableItems InItem InitialRequestedAddAmount;
      it' ← load InItem;
      if StackableAmountAdded =? InitialRequestedAddAmount
      then mret (AddedAll InitialRequestedAddAmount
                   (Format "Successfully added {0} {1} to the inventory!"
                      [ItemName (ItemTextData it'); pretty StackableAmountAdded]))
      else if (StackableAmountAdded <? InitialRequestedAddAmount) && (StackableAmountAdded >? 0)
      then mret (AddedSome StackableAmountAdded
                   (Format "Could not add all {0} to the inventory. Added {1} {0} instead!"
                      [ItemName (ItemTextData it'); pretty StackableAmountAdded]))
      else mret (AddedNone
                   (Format "Could not add {0} to the inventory. No Remaining Slots / Invalid Item!"
                      [ItemName (ItemTextData it')]))
  else mret (AddedNone "Could not add item to the inventory. No Owner Found!").

End Inventory.

Export Inventory.

(** ** States the two primitives end in

    [removed] is the state after [RemoveAmountOfItem], [added] the state
    after [AddNewItem]; the lemmas [RemoveAmountOfItem_run],
    [AddNewItem_absorb] and [AddNewItem_copy] derive them from the
    operations. *)

Definition removed (p : UItemPtr) (it : UItemBase) (n : Z) (s : State) : State :=
  let actual := Z.min n (Quantity it) in
  with_Updated (S (OnInventoryUpdated s))
    (with_TotalWeight
       (fsub (InventoryTotalWeight s) (fmul (of_int32 actual) (GetItemSingleWeight it)))
       (with_Objects
          (poke p (SetQuantity (wrap32 (Quantity it - actual)) it) (Objects s)) s)).

Definition placed (this : nat) (n : Z) (it : UItemBase) : UItemBase :=
  SetQuantity n (with_OwningInventory (Some this) it).

Definition added (NewItem : UItemPtr) (new : UItemBase) (h : list UItemBase) (s : State) : State :=
  with_Updated (S (OnInventoryUpdated s))
    (with_TotalWeight (fadd (InventoryTotalWeight s) (GetItemStackWeight new))
       (with_Contents (TArray.Add (InventoryContents s) NewItem)
          (with_Objects h s))).

(** The entry [AddNewItem] appends for [*p = it], the object it
    designates, and the store afterwards: the instance itself when it is
    already a copy or a pickup, a new copy otherwise. *)
Definition entry (s : State) (p : UItemPtr) (it : UItemBase) : UItemPtr :=
  if bIsCopy it || bIsPickup it then p else Some (length (Objects s)).

Definition instance (s : State) (n : Z) (it : UItemBase) : UItemBase :=
  placed (This s) n
    (if bIsCopy it || bIsPickup it then ResetItemFlags it else CreateItemCopy it).

Definition objects_after (s : State) (p : UItemPtr) (n : Z) (it : UItemBase) : list UItemBase :=
  if bIsCopy it || bIsPickup it
  then poke p (instance s n it) (Objects s)
  else Objects s ++ [instance s n it].

(** ** Invariants *)

(** Weight of the stack a pointer designates; nothing for a pointer that
    designates no object. *)
Definition weight_at (h : list UItemBase) (p : UItemPtr) : float :=
  from_option GetItemStackWeight (of_int32 0) (peek h p).

(** Sum over Contents of quantity times per-unit weight, the entries
    taken from the last to the first. *)
Definition stack_weights (h : list UItemBase) (c : list UItemPtr) : float :=
  foldr (fun p acc => fadd (weight_at h p) acc) (of_int32 0) c.

Definition ContentsWeight (s : State) : float :=
  stack_weights (Objects s) (InventoryContents s).

Definition SlotsInvariant (s : State) : Prop :=
  TArray.Num (InventoryContents s) <= InventorySlotsCapacity s.

(** Every entry of Contents designates an object. *)
Definition ContentsLive (s : State) : Prop :=
  Forall (fun p => is_Some (peek (Objects s) p)) (InventoryContents s).

(** What a query leaves of the state. *)
Definition unchanged {A} (s : State) (o : outcome A) : Prop :=
  match o with
  | Ok _ s' => s' = s
  | Fault => True
  end.

(** The test of [FindNextPartialStack] on an entry, for a key [k]. *)
Definition partial_match (h : list UItemBase) (k : UItemBase) (x : UItemPtr) : bool :=
  match peek h x with
  | Some e => String.eqb (ID e) (ID k) && negb (IsFullItemStack e)
  | None => false
  end.

(** The three rejections of [HandleNonStackableItems], in its order. *)
Definition no_weight (it : UItemBase) : bool :=
  IsNearlyZero (GetItemSingleWeight it) || flt (GetItemSingleWeight it) (of_int32 0).

Definition overflows_weight (s : State) (it : UItemBase) : bool :=
  flt (InventoryWeightCapacity s) (fadd (InventoryTotalWeight s) (GetItemSingleWeight it)).

Definition no_free_slot (s : State) : bool :=
  TArray.Num (InventoryContents s) + 1 >? InventorySlotsCapacity s.

(** ** The mutating operations *)

Inductive Op :=
  | OpAddNewItem (p : UItemPtr) (n : Z)
  | OpRemoveSingleInstanceOfItem (p : UItemPtr)
  | OpRemoveAmountOfItem (p : UItemPtr) (n : Z)
  | OpSplitExistingStack (p : UItemPtr) (n : Z)
  | OpHandleAddItem (p : UItemPtr).

Definition perform (o : Op) : M unit :=
  match o with
  | OpAddNewItem p n => AddNewItem p n
  | OpRemoveSingleInstanceOfItem p => RemoveSingleInstanceOfItem p
  | OpRemoveAmountOfItem p n => RemoveAmountOfItem p n;; mret tt
  | OpSplitExistingStack p n => SplitExistingStack p n
  | OpHandleAddItem p => HandleAddItem p;; mret tt
  end.

(** The item an operation is given. *)
Definition target (o : Op) : UItemPtr :=
  match o with
  | OpAddNewItem p _ | OpRemoveSingleInstanceOfItem p | OpRemoveAmountOfItem p _
  | OpSplitExistingStack p _ | OpHandleAddItem p => p
  end.

(** The operations the interaction and UI layer invokes. *)
Definition public (o : Op) : bool :=
  match o with
  | OpAddNewItem _ _ => false
  | _ => true
  end.

(** Whether an operation reads the object of its item in the state [s]:
    [RemoveSingleInstanceOfItem] compares pointers only, [HandleAddItem]
    returns at once without an owner, and [SplitExistingStack] does
    nothing without a free slot. *)
Definition dereferences (s : State) (o : Op) : bool :=
  match o with
  | OpRemoveSingleInstanceOfItem _ => false
  | OpHandleAddItem _ => nonnull (Owner s)
  | OpSplitExistingStack _ _ =>
      negb (TArray.Num (InventoryContents s) + 1 >? InventorySlotsCapacity s)
  | _ => true
  end.

Definition flagged (it : UItemBase) : bool := bIsCopy it || bIsPickup it.

(** A stackable item whose quantity is within its stack. *)
Definition regular (it : UItemBase) : bool :=
  bIsStackable (ItemNumericData it)
  && (0 <=? Quantity it) && (Quantity it <=? MaxStackSize (ItemNumericData it)).

Definition contained (s : State) (p : UItemPtr) : bool :=
  TArray.Contains (InventoryContents s) p.

(** ** Sample items and states *)

Module Sample.

(** A non-stackable world pickup of weight 10. *)
Definition sword : UItemBase :=
  {| ID := "sword"; Quantity := 1;
     ItemNumericData := {| Weight := of_int32 10; MaxStackSize := 1; bIsStackable := false |};
     ItemTextData := {| ItemName := "Sword" |};
     bIsCopy := false; bIsPickup := true; OwningInventory := None |}.

(** The stackable item of the scenario: ID 1, weight 10, stacks of 10,
    quantity 6. *)
Definition potion : UItemBase :=
  {| ID := "1"; Quantity := 6;
     ItemNumericData := {| Weight := of_int32 10; MaxStackSize := 10; bIsStackable := true |};
     ItemTextData := {| ItemName := "Potion" |};
     bIsCopy := false; bIsPickup := false; OwningInventory := None |}.

(** A non-stackable item of weight 5e-9f. *)
Definition feather : UItemBase :=
  {| ID := "feather"; Quantity := 1;
     ItemNumericData := {| Weight := decimal 5 9; MaxStackSize := 1;
                           bIsStackable := false |};
     ItemTextData := {| ItemName := "Feather" |};
     bIsCopy := false; bIsPickup := true; OwningInventory := None |}.

(** A non-stackable world pickup of weight 0.1f. *)
Definition pebble : UItemBase :=
  {| ID := "pebble"; Quantity := 1;
     ItemNumericData := {| Weight := decimal 1 1; MaxStackSize := 1;
                           bIsStackable := false |};
     ItemTextData := {| ItemName := "Pebble" |};
     bIsCopy := false; bIsPickup := true; OwningInventory := None |}.

(** A stackable item of weight 0.3f, in stacks of 10. *)
Definition herbs : UItemBase :=
  {| ID := "herbs"; Quantity := 5;
     ItemNumericData := {| Weight := decimal 3 1; MaxStackSize := 10;
                           bIsStackable := true |};
     ItemTextData := {| ItemName := "Herbs" |};
     bIsCopy := false; bIsPickup := false; OwningInventory := None |}.

(** A non-stackable world pickup of weight 2^24 = 16777216. *)
Definition anvil : UItemBase :=
  {| ID := "anvil"; Quantity := 1;
     ItemNumericData := {| Weight := of_int32 16777216; MaxStackSize := 1;
                           bIsStackable := false |};
     ItemTextData := {| ItemName := "Anvil" |};
     bIsCopy := false; bIsPickup := true; OwningInventory := None |}.

(** A stackable item of weight 0.5, in stacks of 10. *)
Definition coins : UItemBase :=
  {| ID := "coins"; Quantity := 4;
     ItemNumericData := {| Weight := decimal 5 1; MaxStackSize := 10;
                           bIsStackable := true |};
     ItemTextData := {| ItemName := "Coins" |};
     bIsCopy := false; bIsPickup := false; OwningInventory := None |}.

(** An owned, empty container next to the objects [h]. *)
Definition empty_inventory (h : list UItemBase) (slots : Z) (capacity : float) : State :=
  {| Objects := h; InventoryContents := []; InventoryTotalWeight := of_int32 0;
     InventorySlotsCapacity := slots; InventoryWeightCapacity := capacity;
     OnInventoryUpdated := 0; Owner := Some 0%nat; This := 1%nat |}.

(** A container that holds [it] alone, [it] being the object at address 0. *)
Definition holding (it : UItemBase) (slots : Z) (capacity : float) : State :=
  {| Objects := [it]; InventoryContents := [Some 0%nat];
     InventoryTotalWeight := GetItemStackWeight it;
     InventorySlotsCapacity := slots; InventoryWeightCapacity := capacity;
     OnInventoryUpdated := 0; Owner := Some 0%nat; This := 1%nat |}.

(** A state with one more object, which is in no container. *)
Definition beside (it : UItemBase) (s : State) : State :=
  with_Objects (Objects s ++ [it]) s.

(** The sword once it is in a container: its flags are cleared. *)
Definition held_sword : UItemBase := placed 1 1 (ResetItemFlags sword).

(** A stack of 5 potions as [AddNewItem] creates it from [potion]. *)
Definition held_potions : UItemBase := placed 1 5 (CreateItemCopy potion).

Definition held_pebble : UItemBase := placed 1 1 (ResetItemFlags pebble).
Definition held_anvil : UItemBase := placed 1 1 (ResetItemFlags anvil).

(** A stack of 4 coins as [AddNewItem] creates it from [coins]. *)
Definition held_coins : UItemBase := placed 1 4 (CreateItemCopy coins).

(** The container after [AddNewItem] of the anvil, which is absorbed, and
    of 4 coins, which are copied: TotalWeight is 16777216 + 2. *)
Definition vault : State :=
  {| Objects := [held_anvil; coins; held_coins];
     InventoryContents := [Some 0%nat; Some 2%nat];
     InventoryTotalWeight := of_int32 16777218;
     InventorySlotsCapacity := 4; InventoryWeightCapacity := of_int32 20000000;
     OnInventoryUpdated := 2; Owner := Some 0%nat; This := 1%nat |}.

(** The container after [AddNewItem] of the pebble, next to the herbs:
    TotalWeight is 0.1f. *)
Definition pouch : State :=
  {| Objects := [held_pebble; herbs];
     InventoryContents := [Some 0%nat];
     InventoryTotalWeight := decimal 1 1;
     InventorySlotsCapacity := 4; InventoryWeightCapacity := of_int32 100;
     OnInventoryUpdated := 1; Owner := Some 0%nat; This := 1%nat |}.

End Sample.

(** ** Searches *)

(** [r] is the answer of a search of [c] for the first entry that passes
    [f]: that entry, with no entry before it passing, or null when no
    entry passes. *)
Definition first_such (f : UItemPtr -> bool) (c : list UItemPtr) (r : UItemPtr) : Prop :=
  (exists i, c !! i = Some r /\ f r = true
             /\ forall j y, (j < i)%nat -> c !! j = Some y -> f y = false)
  \/ (r = None /\ forall y, y ∈ c -> f y = false).

(** ** More sample states *)

Module Stock.

(** A full stack of 10 potions. *)
Definition full_potions : UItemBase := placed 1 10 (CreateItemCopy Sample.potion).

(** A container with a full stack of potions, then a stack of 5, then a
    sword; total weight 160 of 200, 3 slots of 4. *)
Definition shelf : State :=
  {| Objects := [full_potions; Sample.held_potions; Sample.held_sword];
     InventoryContents := [Some 0%nat; Some 1%nat; Some 2%nat];
     InventoryTotalWeight := of_int32 160;
     InventorySlotsCapacity := 4; InventoryWeightCapacity := of_int32 200;
     OnInventoryUpdated := 0; Owner := Some 0%nat; This := 1%nat |}.

End Stock.

(** ** The store *)

Section Store.

Implicit Types (h : list UItemBase) (p q : UItemPtr) (it x : UItemBase).

Lemma peek_poke_eq h p it x : peek h p = Some it -> peek (poke p x h) p = Some x.
Proof.
  destruct p as [a|]; simpl; [|done].
  intros H. apply list_lookup_insert_eq. by eapply lookup_lt_Some.
Qed.

Lemma peek_poke_ne h p q x : p <> q -> peek (poke p x h) q = peek h q.
Proof.
  destruct p as [a|], q as [b|]; simpl; try done.
  intros H. apply list_lookup_insert_ne. congruence.
Qed.

Lemma poke_poke h p x y : poke p x (poke p y h) = poke p x h.
Proof. destruct p as [a|]; simpl; [|done]. apply list_insert_insert_eq. Qed.

Lemma peek_grow h p it l : peek h p = Some it -> peek (h ++ l) p = Some it.
Proof. destruct p as [a|]; simpl; [|done]. apply lookup_app_l_Some. Qed.

Lemma peek_new h x : peek (h ++ [x]) (Some (length h)) = Some x.
Proof. simpl. by rewrite list_lookup_middle. Qed.

Lemma peek_new_ne h p it : peek h p = Some it -> p <> Some (length h).
Proof.
  destruct p as [a|]; simpl; [|done].
  intros H%lookup_lt_Some. intros [= ->]. lia.
Qed.

End Store.

(** ** Running a computation *)

Lemma bind_run {A B} (m : M A) (k : A -> M B) (s : State) :
  (m ≫= k) s = match m s with
               | Ok a s' => k a s'
               | Fault => Fault
               end.
Proof. reflexivity. Qed.

Lemma bind_ret {A B} (a : A) (k : A -> M B) (s : State) : (mret a ≫= k) s = k a s.
Proof. reflexivity. Qed.

Lemma bind_gets {A B} (f : State -> A) (k : A -> M B) (s : State) :
  (gets f ≫= k) s = k (f s) s.
Proof. reflexivity. Qed.

Lemma bind_modify {B} (f : State -> State) (k : unit -> M B) (s : State) :
  (modify f ≫= k) s = k tt (f s).
Proof. reflexivity. Qed.

Lemma bind_assoc {A B C} (m : M A) (f : A -> M B) (g : B -> M C) (s : State) :
  ((m ≫= f) ≫= g) s = (m ≫= fun x => f x ≫= g) s.
Proof. rewrite !bind_run. by destruct (m s). Qed.

Lemma load_run p it s : peek (Objects s) p = Some it -> load p s = Ok it s.
Proof. unfold load. by intros ->. Qed.

Lemma load_fault p s : peek (Objects s) p = None -> load p s = Fault.
Proof. unfold load. by intros ->. Qed.

Lemma update_run p f it s :
  peek (Objects s) p = Some it ->
  update p f s = Ok tt (with_Objects (poke p (f it) (Objects s)) s).
Proof. intros H. unfold update. rewrite bind_run, (load_run _ _ _ H). reflexivity. Qed.

Lemma bind_load {B} p it (k : UItemBase -> M B) s :
  peek (Objects s) p = Some it -> (load p ≫= k) s = k it s.
Proof. intros H. by rewrite bind_run, (load_run _ _ _ H). Qed.

Lemma bind_update {B} p f it (k : unit -> M B) s :
  peek (Objects s) p = Some it ->
  (update p f ≫= k) s = k tt (with_Objects (poke p (f it) (Objects s)) s).
Proof. intros H. by rewrite bind_run, (update_run _ _ _ _ H). Qed.

(** Projections of an updated state reduce; nothing else is unfolded. *)
Ltac state_simpl :=
  cbn [Objects InventoryContents InventoryTotalWeight InventorySlotsCapacity
       InventoryWeightCapacity OnInventoryUpdated Owner This
       with_Objects with_Contents with_TotalWeight with_Updated] in *.

Lemma poke_new (h : list UItemBase) (x y : UItemBase) :
  poke (Some (length h)) y (h ++ [x]) = h ++ [y].
Proof.
  simpl. induction h as [|z h IH]; simpl; [done|]. by rewrite IH.
Qed.

(** ** What the item methods keep *)

Lemma SetQuantity_weight n it :
  GetItemSingleWeight (SetQuantity n it) = GetItemSingleWeight it.
Proof. unfold SetQuantity. by destruct (bIsStackable _). Qed.

Lemma SetQuantity_ID n it : ID (SetQuantity n it) = ID it.
Proof. unfold SetQuantity. by destruct (bIsStackable _). Qed.

Lemma SetQuantity_flags n it :
  bIsCopy (SetQuantity n it) = bIsCopy it /\ bIsPickup (SetQuantity n it) = bIsPickup it.
Proof. unfold SetQuantity. by destruct (bIsStackable _). Qed.

Lemma SetQuantity_data n it : ItemNumericData (SetQuantity n it) = ItemNumericData it.
Proof. unfold SetQuantity. by destruct (bIsStackable _). Qed.

Lemma SetQuantity_stackable n it :
  bIsStackable (ItemNumericData it) = true ->
  Quantity (SetQuantity n it) = Clamp n 0 (MaxStackSize (ItemNumericData it)).
Proof. unfold SetQuantity. by intros ->. Qed.

(** ** Closed forms of the two primitives *)

Lemma RemoveAmountOfItem_run p n it s :
  peek (Objects s) p = Some it ->
  RemoveAmountOfItem p n s = Ok (Z.min n (Quantity it)) (removed p it n s).
Proof.
  intros H. unfold RemoveAmountOfItem.
  rewrite (bind_load _ _ _ _ H), (bind_update _ _ _ _ _ H).
  erewrite bind_load by (state_simpl; eapply peek_poke_eq, H).
  rewrite bind_modify. unfold Broadcast. rewrite bind_modify.
  unfold removed. state_simpl. by rewrite SetQuantity_weight.
Qed.

Lemma AddNewItem_absorb p n it s :
  peek (Objects s) p = Some it ->
  bIsCopy it || bIsPickup it = true ->
  let new := placed (This s) n (ResetItemFlags it) in
  AddNewItem p n s = Ok tt (added p new (poke p new (Objects s)) s).
Proof.
  intros H Hf new. unfold AddNewItem.
  rewrite (bind_load _ _ _ _ H), Hf.
  rewrite !bind_assoc, (bind_update _ _ _ _ _ H), bind_ret, bind_gets.
  erewrite bind_update by (state_simpl; eapply peek_poke_eq, H).
  erewrite bind_update by (state_simpl; eapply peek_poke_eq, peek_poke_eq, H).
  rewrite bind_modify.
  erewrite bind_load
    by (state_simpl; eapply peek_poke_eq, peek_poke_eq, peek_poke_eq, H).
  rewrite bind_modify. unfold Broadcast, modify, added. state_simpl.
  by rewrite !poke_poke.
Qed.

Lemma AddNewItem_copy p n it s :
  peek (Objects s) p = Some it ->
  bIsCopy it || bIsPickup it = false ->
  let new := placed (This s) n (CreateItemCopy it) in
  AddNewItem p n s
  = Ok tt (added (Some (length (Objects s))) new (Objects s ++ [new]) s).
Proof.
  intros H Hf new. unfold AddNewItem.
  rewrite (bind_load _ _ _ _ H), Hf.
  rewrite bind_run. unfold NewObject at 1. rewrite bind_gets.
  erewrite bind_update by (state_simpl; apply peek_new).
  state_simpl. rewrite poke_new.
  erewrite bind_update by (state_simpl; apply peek_new).
  state_simpl. rewrite poke_new, bind_modify.
  erewrite bind_load by (state_simpl; apply peek_new).
  rewrite bind_modify. unfold Broadcast, modify, added. by state_simpl.
Qed.

(** ** Facts about machine numbers *)

Lemma wrap32_int32 z : int32 z -> wrap32 z = z.
Proof.
  unfold int32, wrap32, INT_MIN, INT_MAX. intros Hz.
  rewrite Z.mod_small; lia.
Qed.

Lemma SFcompare_swap x y : SFcompare y x = CompOpp <$> SFcompare x y.
Proof.
  destruct x as [sx|sx| |sx mx ex], y as [sy|sy| |sy my ey]; simpl;
    try done; try (by destruct sx); try (by destruct sy);
    try (by destruct sx, sy).
  assert (Pos.compare_cont Eq my mx = CompOpp (Pos.compare_cont Eq mx my)) as Hm.
  { by rewrite Pos.compare_cont_antisym. }
  rewrite (Z.compare_antisym ex ey), Hm.
  destruct sx, sy; simpl; try done; destruct (ex ?= ey); simpl; try done.
Qed.

(** An order holds between numbers only. *)
Lemma fle_not_nan x y : fle x y = true -> is_nan x = false /\ is_nan y = false.
Proof. by destruct x, y. Qed.

(** Between numbers, [x <= y] is the negation of [y < x]. *)
Lemma flt_false_fle x y :
  is_nan x = false -> is_nan y = false -> flt y x = false -> fle x y = true.
Proof.
  intros Hx Hy. unfold flt, fle, SFltb, SFleb. rewrite (SFcompare_swap x y).
  destruct (SFcompare x y) as [[]|] eqn:Hc; simpl; try done.
  by destruct x, y.
Qed.

(** Nearly zero or negative: at most the tolerance. *)
Lemma IsNearlyZero_or_negative w :
  IsNearlyZero w || flt w (of_int32 0) = fle w UE_SMALL_NUMBER.
Proof.
  destruct w as [[]|[]| |[] m e]; try reflexivity.
  - apply orb_true_r.
  - apply orb_false_r.
Qed.

Lemma digits2_pos_xO p : digits2_pos p~0 = Pos.succ (digits2_pos p).
Proof. reflexivity. Qed.

(** [(float) 1 * w] is [w]. *)
Lemma fmul_one w : valid w = true -> fmul (of_int32 1) w = w.
Proof.
  destruct w as [s|s| |s m e]; try reflexivity.
  unfold valid, valid_binary, bounded, canonical_mantissa.
  intros [Hc Hb]%andb_true_iff. apply Z.eqb_eq in Hc.
  unfold fmul, SFmul.
  change (of_int32 1) with (S754_finite false 8388608 (-23)). cbv iota beta.
  cbn [xorb].
  assert ((8388608 * m)%positive
          = (m~0~0~0~0~0~0~0~0~0~0~0~0~0~0~0~0~0~0~0~0~0~0~0)%positive) as -> by reflexivity.
  assert (Zdigits2 (Z.pos (m~0~0~0~0~0~0~0~0~0~0~0~0~0~0~0~0~0~0~0~0~0~0~0)) + (-23 + e)
          = Z.pos (digits2_pos m) + e) as Hd.
  { unfold Zdigits2. rewrite !digits2_pos_xO, !Pos2Z.inj_succ. lia. }
  unfold binary_round_aux, shr_fexp. rewrite Hd, Hc.
  replace (e - (-23 + e)) with 23 by lia.
  cbn [shr_record_of_loc shr].
  assert (SpecFloat.iter_pos shr_1 23
            {| shr_m := Z.pos (m~0~0~0~0~0~0~0~0~0~0~0~0~0~0~0~0~0~0~0~0~0~0~0);
               shr_r := false; shr_s := false |}
          = {| shr_m := Z.pos m; shr_r := false; shr_s := false |}) as -> by reflexivity.
  cbn [shr_m shr_r shr_s loc_of_shr_record round_nearest_even Zdigits2].
  replace (-23 + e + 23) with e by lia.
  rewrite Hc, Z.sub_diag. cbn [shr shr_record_of_loc shr_m].
  by rewrite Hb.
Qed.

Lemma finite_valid x : finite x = true -> valid x = true.
Proof. by destruct x. Qed.

(** Rounding a natural number never gives NaN. *)
Lemma shr_1_nonneg mrs : 0 <= shr_m mrs -> 0 <= shr_m (shr_1 mrs).
Proof. destruct mrs as [[|[p|p|]|p] r s]; simpl; lia. Qed.

Lemma iter_shr_1_nonneg n mrs :
  0 <= shr_m mrs -> 0 <= shr_m (SpecFloat.iter_pos shr_1 n mrs).
Proof.
  revert mrs. induction n as [n IH|n IH|]; intros mrs H; simpl.
  - apply IH, IH. by apply shr_1_nonneg.
  - by apply IH, IH.
  - by apply shr_1_nonneg.
Qed.

Lemma shr_fexp_nonneg m e l :
  0 <= m -> 0 <= shr_m (shr_fexp prec emax m e l).1.
Proof.
  intros Hm. unfold shr_fexp, shr.
  assert (0 <= shr_m (shr_record_of_loc m l)) as H0.
  { by destruct l as [|[]]. }
  destruct (_ - e); simpl; [done| |done]. by apply iter_shr_1_nonneg.
Qed.

Lemma round_nearest_even_nonneg m l : 0 <= m -> 0 <= round_nearest_even m l.
Proof.
  intros Hm. destruct l as [|[]]; simpl; try lia. destruct (Z.even m); lia.
Qed.

Lemma binary_round_aux_not_nan s m e l :
  0 <= m -> is_nan (binary_round_aux prec emax s m e l) = false.
Proof.
  intros Hm. unfold binary_round_aux.
  pose proof (shr_fexp_nonneg m e l Hm) as H1.
  destruct (shr_fexp prec emax m e l) as [mrs' e']. simpl in H1.
  pose proof (shr_fexp_nonneg _ e' loc_Exact
                (round_nearest_even_nonneg _ (loc_of_shr_record mrs') H1)) as H2.
  destruct (shr_fexp prec emax _ e' loc_Exact) as [mrs'' e'']. simpl in H2.
  destruct (shr_m mrs'') as [|q|q]; [done| |lia].
  by destruct (_ <=? _).
Qed.

Lemma binary_normalize_not_nan m e z :
  is_nan (binary_normalize prec emax m e z) = false.
Proof.
  unfold binary_normalize, binary_round.
  destruct m as [|q|q]; [done|..];
    destruct (shl_align _ _ _) as [mz ez]; by apply binary_round_aux_not_nan.
Qed.

(** The sum of a number or an infinity and a finite number is no NaN. *)
Lemma fadd_not_nan x y :
  is_nan x = false -> finite y = true -> is_nan (fadd x y) = false.
Proof.
  intros Hx Hy. destruct x as [sx|sx| |sx mx ex], y as [sy|sy| |sy my ey]; try done.
  - by destruct sx, sy.
  - apply binary_normalize_not_nan.
Qed.

(** From a total of zero, adding a finite weight and taking it off again
    gives zero. *)
Lemma fsub_fadd_zero y :
  finite y = true -> fsub (fadd (of_int32 0) y) y = of_int32 0.
Proof.
  destruct y as [[]|sy| |sy my ey]; try done.
  intros _. unfold fadd, fsub. cbn [SFadd of_int32 binary_normalize].
  change (binary_normalize prec emax 0 0 false) with (S754_zero false).
  cbn [SFadd SFsub]. by rewrite Z.sub_diag.
Qed.
(** ** Rounding *)

Lemma fexp_eq x : fexp prec emax x = Z.max (x - 24) (-149).
Proof. reflexivity. Qed.

Lemma digits2_pos_bounds m :
  2 ^ (Z.pos (digits2_pos m) - 1) <= Z.pos m < 2 ^ Z.pos (digits2_pos m).
Proof.
  induction m as [m IH|m IH|]; cbn [digits2_pos].
  - rewrite Pos2Z.inj_succ. change (Z.pos m~1) with (2 * Z.pos m + 1).
    set (d := Z.pos (digits2_pos m)) in *.
    assert (2 ^ d = 2 * 2 ^ (d - 1)) as Hd.
    { rewrite <- Z.pow_succ_r by lia. f_equal. lia. }
    replace (Z.succ d - 1) with d by lia.
    rewrite Z.pow_succ_r by lia.
    generalize dependent (2 ^ (d - 1)). generalize (2 ^ d). intros; lia.
  - rewrite Pos2Z.inj_succ. change (Z.pos m~0) with (2 * Z.pos m).
    set (d := Z.pos (digits2_pos m)) in *.
    assert (2 ^ d = 2 * 2 ^ (d - 1)) as Hd.
    { rewrite <- Z.pow_succ_r by lia. f_equal. lia. }
    replace (Z.succ d - 1) with d by lia.
    rewrite Z.pow_succ_r by lia.
    generalize dependent (2 ^ (d - 1)). generalize (2 ^ d). intros; lia.
  - simpl. lia.
Qed.

Lemma Zdigits2_bounds m :
  0 < m -> 0 < Zdigits2 m /\ 2 ^ (Zdigits2 m - 1) <= m < 2 ^ Zdigits2 m.
Proof.
  destruct m as [|p|p]; try lia. intros _. simpl.
  split; [lia | apply digits2_pos_bounds].
Qed.

(** Exponents of powers of 2 compare as the powers do. *)
Lemma pow2_lt_inv a b : 0 <= b -> 2 ^ a < 2 ^ b -> a < b.
Proof. intros Hb H. apply (Z.pow_lt_mono_r_iff 2); lia. Qed.

Lemma pow2_pos a : 0 <= a -> 0 < 2 ^ a.
Proof. intros. apply Z.pow_pos_nonneg; lia. Qed.

Lemma pow2_add a b : 0 <= a -> 0 <= b -> 2 ^ (a + b) = 2 ^ a * 2 ^ b.
Proof. intros. by apply Z.pow_add_r. Qed.

Lemma shr_1_shifted a : 0 <= shr_m a -> shifted 1 a (shr_1 a).
Proof.
  destruct a as [[|[p|p|]|p] r s]; unfold shifted; cbn [shr_1 shr_m shr_r shr_s];
    intros H; try lia; change (2 ^ 1) with 2.
  - split; [done|]. by intros _ -> ->.
  - change (Z.pos p~1) with (2 * Z.pos p + 1). split.
    + apply Z.div_unique with 1; lia.
    + intros Hm. exfalso.
      rewrite Z.add_comm, Z.mul_comm, Z.mod_add in Hm by lia. done.
  - change (Z.pos p~0) with (2 * Z.pos p). split.
    + apply Z.div_unique with 0; lia.
    + by intros _ -> ->.
  - split; [done|]. intros Hm. done.
Qed.

Lemma shifted_trans j k a b c :
  0 <= j -> 0 <= k -> shifted j a b -> shifted k b c -> shifted (j + k) a c.
Proof.
  intros Hj Hk [Hb Hbits1] [Hc Hbits2].
  pose proof (pow2_pos j Hj). pose proof (pow2_pos k Hk).
  split.
  - rewrite Hc, Hb, pow2_add by done. apply Z.div_div; lia.
  - intros Hm Hr Hs. rewrite pow2_add in Hm by done.
    apply Z.mod_divide in Hm as [t Ht]; [|lia].
    assert (shr_m a mod 2 ^ j = 0) as Hmj.
    { rewrite Ht. replace (t * (2 ^ j * 2 ^ k)) with (t * 2 ^ k * 2 ^ j) by lia.
      apply Z.mod_mul. lia. }
    destruct (Hbits1 Hmj Hr Hs) as [Hr1 Hs1].
    apply Hbits2; [|done..].
    rewrite Hb, Ht. replace (t * (2 ^ j * 2 ^ k)) with (t * 2 ^ k * 2 ^ j) by lia.
    rewrite Z.div_mul by lia. apply Z.mod_mul. lia.
Qed.

Lemma iter_shr_1_shifted n a :
  0 <= shr_m a -> shifted (Z.pos n) a (SpecFloat.iter_pos shr_1 n a).
Proof.
  revert a. induction n as [n IH|n IH|]; intros a Ha; cbn [SpecFloat.iter_pos].
  - replace (Z.pos n~1) with (1 + (Z.pos n + Z.pos n)) by lia.
    pose proof (shr_1_nonneg a Ha) as H1.
    pose proof (iter_shr_1_nonneg n _ H1) as H2.
    eapply shifted_trans; [lia | lia | by apply shr_1_shifted |].
    eapply shifted_trans; [lia | lia | by apply IH | by apply IH].
  - replace (Z.pos n~0) with (Z.pos n + Z.pos n) by lia.
    pose proof (iter_shr_1_nonneg n _ Ha) as H2.
    eapply shifted_trans; [lia | lia | by apply IH | by apply IH].
  - by apply shr_1_shifted.
Qed.

(** The shift to the exponent of the format. *)
Lemma shr_fexp_spec m e :
  0 <= m ->
  let k := Z.max (fexp prec emax (Zdigits2 m + e) - e) 0 in
  exists mrs,
    shr_fexp prec emax m e loc_Exact = (mrs, e + k)
    /\ shr_m mrs = m / 2 ^ k
    /\ (m mod 2 ^ k = 0 -> loc_of_shr_record mrs = loc_Exact).
Proof.
  intros Hm k. unfold shr_fexp, shr. cbn [shr_record_of_loc].
  subst k. destruct (fexp prec emax (Zdigits2 m + e) - e) as [|n|n] eqn:Hn.
  - eexists. split; [by rewrite Z.add_0_r|]. simpl. split; [by rewrite Z.div_1_r | done].
  - destruct (iter_shr_1_shifted n {| shr_m := m; shr_r := false; shr_s := false |} Hm)
      as [Hq Hbits].
    eexists. split; [reflexivity|]. rewrite Z.max_l by lia.
    split; [exact Hq|]. intros Hmod.
    destruct (Hbits Hmod eq_refl eq_refl) as [Hr Hs].
    destruct (SpecFloat.iter_pos _ _ _) as [m' r' s']. simpl in *. by subst.
  - eexists. rewrite Z.max_r by lia.
    split; [by rewrite Z.add_0_r|]. simpl. split; [by rewrite Z.div_1_r | done].
Qed.

Lemma round_nearest_even_bounds m l :
  m <= round_nearest_even m l <= m + 1.
Proof. destruct l as [|[]]; simpl; try lia. destruct (Z.even m); lia. Qed.

(** Rounding a natural number [m * 2 ^ e]: a first shift by [k1] to the
    exponent of the format, a step up or not, and a second shift by
    [k2], of one position at most, when the step has made the mantissa
    too long. *)
Lemma binary_round_aux_spec s m e :
  0 <= m ->
  exists m2,
    let k1 := Z.max (fexp prec emax (Zdigits2 m + e) - e) 0 in
    let k2 := Z.max (fexp prec emax (Zdigits2 m2 + (e + k1)) - (e + k1)) 0 in
    m / 2 ^ k1 <= m2 <= m / 2 ^ k1 + 1
    /\ (m mod 2 ^ k1 = 0 -> m2 = m / 2 ^ k1)
    /\ binary_round_aux prec emax s m e loc_Exact
       = match m2 / 2 ^ k2 with
         | 0 => S754_zero s
         | Z.pos m' =>
             if e + k1 + k2 <=? emax - prec
             then S754_finite s m' (e + k1 + k2) else S754_infinity s
         | Z.neg _ => S754_nan
         end.
Proof.
  intros Hm. unfold binary_round_aux.
  destruct (shr_fexp_spec m e Hm) as (mrs1 & -> & Hq & Hex). cbv zeta in *.
  set (k1 := Z.max (fexp prec emax (Zdigits2 m + e) - e) 0) in *.
  set (m2 := round_nearest_even (shr_m mrs1) (loc_of_shr_record mrs1)).
  assert (0 < 2 ^ k1) as Hp by (apply pow2_pos; lia).
  assert (0 <= m / 2 ^ k1) as Hq0 by (apply Z.div_pos; lia).
  assert (0 <= m2) as Hm2.
  { pose proof (round_nearest_even_bounds (shr_m mrs1) (loc_of_shr_record mrs1)). lia. }
  destruct (shr_fexp_spec m2 (e + k1) Hm2) as (mrs2 & -> & Hq2 & _). cbv zeta in *.
  exists m2. rewrite <- Hq, Hq2.
  split; [apply round_nearest_even_bounds|].
  split; [|done].
  intros Hmod. unfold m2. by rewrite (Hex Hmod).
Qed.
(** A finite number of the type: its exponent is the one of the format
    for its magnitude, and is within the range. *)
Lemma bounded_spec m e :
  bounded prec emax m e = true ->
  Z.max (Z.pos (digits2_pos m) + e - 24) (-149) = e /\ e <= 104.
Proof.
  unfold bounded, canonical_mantissa. intros [Hc Hb]%andb_true_iff.
  apply Z.eqb_eq in Hc. apply Z.leb_le in Hb. rewrite fexp_eq in Hc.
  split; [done|]. exact Hb.
Qed.

Lemma div_pow2_pos m k : 0 <= k -> 2 ^ k <= m -> 0 < m / 2 ^ k.
Proof.
  intros Hk Hm. pose proof (pow2_pos k Hk).
  assert (1 <= m / 2 ^ k); [|lia]. apply Z.div_le_lower_bound; lia.
Qed.

(** Rounding is monotone, downwards: a natural number that is at most a
    number [mT * 2 ^ eT] of the type is rounded to zero or to a number
    of the type that compares at most [mT * 2 ^ eT]. *)
Lemma binary_round_aux_le s m e mT eT :
  bounded prec emax mT eT = true ->
  e <= eT ->
  0 < m <= Z.pos mT * 2 ^ (eT - e) ->
  binary_round_aux prec emax s m e loc_Exact = S754_zero s
  \/ exists m' e',
      binary_round_aux prec emax s m e loc_Exact = S754_finite s m' e'
      /\ (e' < eT \/ (e' = eT /\ Z.pos m' <= Z.pos mT)).
Proof.
  intros [HcT HbT]%bounded_spec He [Hm0 Hm].
  destruct (binary_round_aux_spec s m e) as (m2 & Hm2 & Hex & ->); [lia|].
  cbv zeta in *. rewrite !fexp_eq in *.
  destruct (Zdigits2_bounds m Hm0) as [Hd0 [Hdl Hdu]].
  pose proof (digits2_pos_bounds mT) as [HTl HTu].
  set (d := Zdigits2 m) in *. set (dT := Z.pos (digits2_pos mT)) in *.
  assert (d + e <= dT + eT) as HD.
  { assert (2 ^ (d - 1) < 2 ^ (dT + (eT - e))) as Hlt.
    { rewrite pow2_add by lia. pose proof (pow2_pos (eT - e)). nia. }
    apply pow2_lt_inv in Hlt; lia. }
  set (k1 := Z.max (Z.max (d + e - 24) (-149) - e) 0) in *.
  assert (0 <= k1) as Hk1 by lia.
  assert (e + k1 <= eT) as HE1 by lia.
  assert (-149 <= e + k1) as HE1min by lia.
  pose proof (pow2_pos k1 Hk1) as Hp1.
  set (B := Z.pos mT * 2 ^ (eT - (e + k1))).
  assert (m <= B * 2 ^ k1) as HmB.
  { unfold B. rewrite <- Z.mul_assoc, <- pow2_add by lia.
    replace (eT - (e + k1) + k1) with (eT - e) by lia. done. }
  assert (0 <= m / 2 ^ k1) as Hq0 by (apply Z.div_pos; lia).
  assert (m2 <= B) as Hm2B.
  { assert (m / 2 ^ k1 <= B) as HqB by (apply Z.div_le_upper_bound; lia).
    destruct (Z.eq_dec (m / 2 ^ k1) B) as [Heq|Hne]; [|lia].
    pose proof (Z.mul_div_le m (2 ^ k1) Hp1) as Hle.
    assert (m = B * 2 ^ k1) as HmEq by lia.
    rewrite Hex; [lia|]. rewrite HmEq. apply Z.mod_mul. lia. }
  destruct (Z.eq_dec m2 0) as [->|Hm2pos].
  { left. cbn [Zdigits2]. rewrite Z.max_r by lia. done. }
  destruct (Zdigits2_bounds m2) as [Hd2 [Hd2l Hd2u]]; [lia|].
  set (d2 := Zdigits2 m2) in *.
  assert (d2 + (e + k1) <= dT + eT) as HD2.
  { assert (2 ^ (d2 - 1) < 2 ^ (dT + (eT - (e + k1)))) as Hlt.
    { rewrite pow2_add by lia. pose proof (pow2_pos (eT - (e + k1))). unfold B in Hm2B. nia. }
    apply pow2_lt_inv in Hlt; lia. }
  set (k2 := Z.max (Z.max (d2 + (e + k1) - 24) (-149) - (e + k1)) 0) in *.
  assert (0 <= k2) as Hk2 by lia.
  assert (e + k1 + k2 <= eT) as HE2 by lia.
  pose proof (pow2_pos k2 Hk2) as Hp2.
  assert (0 <= m2 / 2 ^ k2) as Hq2 by (apply Z.div_pos; lia).
  destruct (m2 / 2 ^ k2) as [|m3|m3] eqn:Hm3; [by left| |lia].
  right. exists m3, (e + k1 + k2).
  change (emax - prec) with 104.
  rewrite (proj2 (Z.leb_le _ _)) by lia. split; [done|].
  destruct (Z.eq_dec (e + k1 + k2) eT) as [Heq|Hne]; [right|left; lia].
  split; [done|]. rewrite <- Hm3. apply Z.div_le_upper_bound; [lia|].
  unfold B in Hm2B. replace (eT - (e + k1)) with k2 in Hm2B by lia. lia.
Qed.

(** Rounding is monotone, upwards: a natural number that is at least a
    number [mT * 2 ^ eT] of the type is rounded to an infinity or to a
    number that compares at least [mT * 2 ^ eT]. *)
Lemma binary_round_aux_ge s m e mT eT :
  bounded prec emax mT eT = true ->
  e <= eT ->
  Z.pos mT * 2 ^ (eT - e) <= m ->
  binary_round_aux prec emax s m e loc_Exact = S754_infinity s
  \/ exists m' e',
      binary_round_aux prec emax s m e loc_Exact = S754_finite s m' e'
      /\ (eT < e' \/ (e' = eT /\ Z.pos mT <= Z.pos m')).
Proof.
  intros [HcT HbT]%bounded_spec He Hm.
  pose proof (pow2_pos (eT - e)) as HpT.
  assert (0 < m) as Hm0 by nia.
  destruct (binary_round_aux_spec s m e) as (m2 & Hm2 & Hex & ->); [lia|].
  cbv zeta in *. rewrite !fexp_eq in *.
  destruct (Zdigits2_bounds m Hm0) as [Hd0 [Hdl Hdu]].
  pose proof (digits2_pos_bounds mT) as [HTl HTu].
  set (d := Zdigits2 m) in *. set (dT := Z.pos (digits2_pos mT)) in *.
  assert (dT + eT <= d + e) as HD.
  { assert (2 ^ (dT - 1 + (eT - e)) < 2 ^ d) as Hlt.
    { rewrite pow2_add by lia. nia. }
    apply pow2_lt_inv in Hlt; lia. }
  set (k1 := Z.max (Z.max (d + e - 24) (-149) - e) 0) in *.
  assert (0 <= k1) as Hk1 by lia.
  assert (eT <= e + k1) as HE1 by lia.
  pose proof (pow2_pos k1 Hk1) as Hp1.
  assert (0 < m / 2 ^ k1
          /\ (e + k1 = eT -> Z.pos mT <= m / 2 ^ k1)) as [Hq0 HqT].
  { split.
    - apply div_pow2_pos; [done|].
      apply Z.le_trans with (2 ^ (d - 1)); [|done].
      apply Z.pow_le_mono_r; lia.
    - intros Heq. apply Z.div_le_lower_bound; [lia|].
      replace (eT - e) with k1 in Hm by lia. lia. }
  assert (0 < m2) as Hm2pos by lia.
  destruct (Zdigits2_bounds m2 Hm2pos) as [Hd2 [Hd2l Hd2u]].
  set (d2 := Zdigits2 m2) in *.
  set (k2 := Z.max (Z.max (d2 + (e + k1) - 24) (-149) - (e + k1)) 0) in *.
  assert (0 <= k2) as Hk2 by lia.
  pose proof (pow2_pos k2 Hk2) as Hp2.
  assert (0 < m2 / 2 ^ k2) as Hq2.
  { apply div_pow2_pos; [done|].
    apply Z.le_trans with (2 ^ (d2 - 1)); [|done].
    apply Z.pow_le_mono_r; lia. }
  destruct (m2 / 2 ^ k2) as [|m3|m3] eqn:Hm3; [lia| |lia].
  destruct (_ <=? _); [|by left].
  right. exists m3, (e + k1 + k2). split; [done|].
  destruct (Z.eq_dec k2 0) as [Hk2z|Hk2nz]; [|left; lia].
  destruct (Z.eq_dec (e + k1) eT) as [Heq|Hne]; [right|left; lia].
  split; [lia|]. rewrite <- Hm3, Hk2z, Z.div_1_r. specialize (HqT Heq). lia.
Qed.
(** Rounding keeps the sign. *)
Lemma binary_round_aux_sign s m e :
  0 <= m ->
  binary_round_aux prec emax s m e loc_Exact = S754_zero s
  \/ binary_round_aux prec emax s m e loc_Exact = S754_infinity s
  \/ exists m' e', binary_round_aux prec emax s m e loc_Exact = S754_finite s m' e'.
Proof.
  intros Hm. pose proof (binary_round_aux_not_nan s m e loc_Exact Hm) as Hnan.
  unfold binary_round_aux in *.
  destruct (shr_fexp prec emax m e loc_Exact) as [mrs' e'].
  destruct (shr_fexp prec emax _ e' loc_Exact) as [mrs'' e''].
  destruct (shr_m mrs'') as [|q|q]; [by left| |done].
  destruct (_ <=? _); [right; right; by eexists _, _ | right; by left].
Qed.

Lemma iter_xO m d : Z.pos (Pos.iter xO m d) = Z.pos m * 2 ^ Z.pos d.
Proof.
  induction d as [|d IH] using Pos.peano_ind.
  - simpl. lia.
  - rewrite Pos.iter_succ, Pos2Z.inj_succ, Z.pow_succ_r by lia.
    change (Z.pos (Pos.iter xO m d)~0) with (2 * Z.pos (Pos.iter xO m d)). lia.
Qed.

(** The alignment of a mantissa to a smaller exponent keeps the
    number. *)
Lemma shl_align_spec m e e' :
  e' <= e -> Z.pos (shl_align m e e').1 = Z.pos m * 2 ^ (e - e').
Proof.
  intros He. unfold shl_align. destruct (e' - e) as [|d|d] eqn:Hd; simpl.
  - replace (e - e') with 0 by lia. lia.
  - lia.
  - rewrite iter_xO. f_equal. f_equal. lia.
Qed.

Lemma shl_align_fexp_spec m e :
  let '(mz, ez) := shl_align m e (fexp prec emax (Z.pos (digits2_pos m) + e)) in
  ez <= e /\ Z.pos mz = Z.pos m * 2 ^ (e - ez).
Proof.
  unfold shl_align. destruct (_ - e) as [|d|d] eqn:Hd.
  - split; [lia|]. rewrite Z.sub_diag. simpl. lia.
  - split; [lia|]. rewrite Z.sub_diag. simpl. lia.
  - split; [lia|]. rewrite iter_xO. f_equal. f_equal. lia.
Qed.

Lemma binary_round_le s m e mT eT :
  bounded prec emax mT eT = true ->
  e <= eT ->
  Z.pos m <= Z.pos mT * 2 ^ (eT - e) ->
  binary_round prec emax s m e = S754_zero s
  \/ exists m' e',
      binary_round prec emax s m e = S754_finite s m' e'
      /\ (e' < eT \/ (e' = eT /\ Z.pos m' <= Z.pos mT)).
Proof.
  intros HT He Hm. unfold binary_round.
  pose proof (shl_align_fexp_spec m e) as Hal.
  destruct (shl_align _ _ _) as [mz ez]. destruct Hal as [Hez Hmz].
  apply binary_round_aux_le; [done | lia |]. split; [lia|].
  rewrite Hmz. replace (eT - ez) with (eT - e + (e - ez)) by lia.
  rewrite pow2_add by lia. pose proof (pow2_pos (e - ez)). nia.
Qed.

Lemma binary_round_ge s m e mT eT :
  bounded prec emax mT eT = true ->
  e <= eT ->
  Z.pos mT * 2 ^ (eT - e) <= Z.pos m ->
  binary_round prec emax s m e = S754_infinity s
  \/ exists m' e',
      binary_round prec emax s m e = S754_finite s m' e'
      /\ (eT < e' \/ (e' = eT /\ Z.pos mT <= Z.pos m')).
Proof.
  intros HT He Hm. unfold binary_round.
  pose proof (shl_align_fexp_spec m e) as Hal.
  destruct (shl_align _ _ _) as [mz ez]. destruct Hal as [Hez Hmz].
  apply binary_round_aux_ge; [done | lia |].
  rewrite Hmz. replace (eT - ez) with (eT - e + (e - ez)) by lia.
  rewrite pow2_add by lia. pose proof (pow2_pos (e - ez)). nia.
Qed.

Lemma binary_round_sign s m e :
  binary_round prec emax s m e = S754_zero s
  \/ binary_round prec emax s m e = S754_infinity s
  \/ exists m' e', binary_round prec emax s m e = S754_finite s m' e'.
Proof.
  unfold binary_round. destruct (shl_align _ _ _) as [mz ez].
  by apply binary_round_aux_sign.
Qed.

(** ** The order of floats *)

Lemma fle_refl x : is_nan x = false -> fle x x = true.
Proof.
  destruct x as [s|[]| |[] m e]; try done; intros _;
    unfold fle, SFleb; simpl; by rewrite Z.compare_refl, Pos.compare_cont_refl.
Qed.

(** At least zero: a zero, a positive number or the positive
    infinity. *)
Lemma fle_zero_inv x :
  fle (of_int32 0) x = true ->
  (exists s, x = S754_zero s) \/ x = S754_infinity false
  \/ exists m e, x = S754_finite false m e.
Proof.
  destruct x as [s|[]| |[] m e]; try done; intros _.
  - left. by eexists.
  - right. by left.
  - right. right. by eexists _, _.
Qed.

(** [(float) z] for [0 <= z <= 2^31] is a zero or a positive finite
    number. *)
Lemma of_int32_nonneg z :
  0 <= z <= 2 ^ 31 ->
  of_int32 z = S754_zero false \/ exists m e, of_int32 z = S754_finite false m e.
Proof.
  intros Hz. unfold of_int32, binary_normalize.
  destruct z as [|p|p]; [by left| |lia].
  destruct (binary_round_le false p 0 8388608 8) as [->|(m' & e' & -> & _)];
    [done | lia | simpl; lia | by left | right; by eexists _, _].
Qed.

(** The product of two numbers that are at least zero is at least
    zero. *)
Lemma fmul_nonneg z w :
  0 <= z <= 2 ^ 31 ->
  finite w = true -> fle (of_int32 0) w = true ->
  fle (of_int32 0) (fmul (of_int32 z) w) = true.
Proof.
  intros Hz Hfin Hw.
  destruct (of_int32_nonneg z Hz) as [->|(m & e & ->)];
    destruct (fle_zero_inv w Hw) as [[sw ->]|[->|(mw & ew & ->)]]; try done.
  unfold fmul, SFmul. cbn [xorb].
  destruct (binary_round_aux_sign false (Z.pos (m * mw)) (e + ew))
    as [->|[->|(m' & e' & ->)]]; done.
Qed.

(** Taking a number that is at least zero off a finite number gives at
    most that number. *)
Lemma fsub_le x y :
  finite x = true -> fle (of_int32 0) y = true -> fle (fsub x y) x = true.
Proof.
  intros Hx Hy.
  destruct (fle_zero_inv y Hy) as [[sy ->]|[->|(my & ey & ->)]].
  - destruct x as [sx| | |sx mx ex]; try done.
    + by destruct sx, sy.
    + by apply fle_refl.
  - by destruct x as [sx| | |[] mx ex].
  - destruct x as [sx| | |sx mx ex]; try done.
    unfold fsub, SFsub, finite in *.
    set (ez := Z.min ex ey).
    pose proof (shl_align_spec mx ex ez ltac:(lia)) as HX.
    pose proof (shl_align_spec my ey ez ltac:(lia)) as HY.
    set (X := Z.pos (shl_align mx ex ez).1) in *.
    set (Y := Z.pos (shl_align my ey ez).1) in *.
    assert (0 < X /\ 0 < Y) as [HX0 HY0] by (unfold X, Y; lia).
    unfold binary_normalize, fle, SFleb. destruct sx; cbn [cond_Zopp].
    + destruct (- X - Y) as [|M|M] eqn:HM; [lia|lia|].
      destruct (binary_round_ge true M ez mx ex Hx) as [->|(m' & e' & -> & Hcmp)];
        [lia | lia | done |].
      simpl. destruct Hcmp as [Hlt|[-> Hle]].
      * by rewrite (proj2 (Z.compare_gt_iff _ _)) by lia.
      * rewrite Z.compare_refl.
        change (Pos.compare_cont Eq m' mx) with (Pos.compare m' mx).
        destruct (Pos.compare_spec m' mx); simpl; try done; lia.
    + destruct (X - Y) as [|M|M] eqn:HM.
      * done.
      * destruct (binary_round_le false M ez mx ex Hx) as [->|(m' & e' & -> & Hcmp)];
          [lia | lia | done |].
        simpl. destruct Hcmp as [Hlt|[-> Hle]].
        -- by rewrite (proj2 (Z.compare_lt_iff _ _)) by lia.
        -- rewrite Z.compare_refl.
           change (Pos.compare_cont Eq m' mx) with (Pos.compare m' mx).
           destruct (Pos.compare_spec m' mx); simpl; try done; lia.
      * by destruct (binary_round_sign true M ez) as [->|[->|(m' & e' & ->)]].
Qed.
(** ** Removing an amount *)

Lemma Clamp_within n hi : 0 <= n <= hi -> Clamp n 0 hi = n.
Proof. unfold Clamp. lia. Qed.

Lemma SetQuantity_regular n it :
  bIsStackable (ItemNumericData it) = true ->
  0 <= n <= MaxStackSize (ItemNumericData it) ->
  Quantity (SetQuantity n it) = n.
Proof. intros Hs Hn. by rewrite SetQuantity_stackable, Clamp_within. Qed.

Lemma regular_spec it :
  regular it = true <->
  bIsStackable (ItemNumericData it) = true
  /\ 0 <= Quantity it <= MaxStackSize (ItemNumericData it).
Proof. unfold regular. rewrite !andb_true_iff, Z.leb_le, Z.leb_le. tauto. Qed.

(** C5, as amended.  For every item [p] designates and every requested
    amount [n], [RemoveAmountOfItem] returns [actual = min n quantity],
    sets TotalWeight to the float difference of TotalWeight and of the
    float product of [actual] and the single weight, broadcasts once,
    leaves Contents as it is, and writes the quantity through
    [SetQuantity] of the [int32] difference [quantity - actual]; the
    quantity is decremented by [actual] when the item is stackable, its
    quantity is within [0, MaxStackSize] and is an [int32], and [n] is
    not negative.  TotalWeight does not grow when [n] and the quantity
    are not negative, the quantity is an [int32], the single weight is
    a finite number at least 0 and TotalWeight is finite. *)
Theorem RemoveAmountOfItem_removes p n it s :
  peek (Objects s) p = Some it ->
  let actual := Z.min n (Quantity it) in
  exists s',
    RemoveAmountOfItem p n s = Ok actual s'
    /\ InventoryTotalWeight s'
       = fsub (InventoryTotalWeight s) (fmul (of_int32 actual) (GetItemSingleWeight it))
    /\ InventoryContents s' = InventoryContents s
    /\ OnInventoryUpdated s' = S (OnInventoryUpdated s)
    /\ peek (Objects s') p = Some (SetQuantity (wrap32 (Quantity it - actual)) it)
    /\ (regular it = true -> 0 <= n -> Quantity it <= INT_MAX ->
        Quantity (SetQuantity (wrap32 (Quantity it - actual)) it) = Quantity it - actual)
    /\ (0 <= n -> 0 <= Quantity it <= INT_MAX ->
        finite (GetItemSingleWeight it) = true ->
        fle (of_int32 0) (GetItemSingleWeight it) = true ->
        finite (InventoryTotalWeight s) = true ->
        fle (InventoryTotalWeight s') (InventoryTotalWeight s) = true).
Proof.
  intros H actual. exists (removed p it n s).
  split; [by apply RemoveAmountOfItem_run|].
  unfold removed; state_simpl.
  split; [done|]. split; [done|]. split; [done|].
  split; [eapply peek_poke_eq, H|]. split.
  - intros [Hs Hq]%regular_spec Hn Hmax.
    rewrite wrap32_int32 by (unfold int32, INT_MIN, INT_MAX in *; lia).
    apply SetQuantity_regular; [done|]. subst actual. lia.
  - intros Hn Hq Hfin Hw HT.
    apply fsub_le; [done|]. apply fmul_nonneg; [|done..].
    unfold INT_MAX in Hq. lia.
Qed.

Lemma RemoveAmountOfItem_removes_witness :
  exists s',
    RemoveAmountOfItem (Some 0%nat) 8 (Sample.holding Sample.held_potions 4 (of_int32 100))
    = Ok 5 s'
    /\ InventoryTotalWeight s' = of_int32 0
    /\ InventoryContents s' = [Some 0%nat]
    /\ (Quantity <$> peek (Objects s') (Some 0%nat)) = Some 0.
Proof.
  destruct (RemoveAmountOfItem_removes (Some 0%nat) 8 Sample.held_potions
              (Sample.holding Sample.held_potions 4 (of_int32 100)) eq_refl)
    as (s' & Hrun & Hw & Hc & _ & Hp & _).
  exists s'. split; [exact Hrun|]. split.
  - rewrite Hw. vm_compute. reflexivity.
  - split; [exact Hc|]. rewrite Hp. reflexivity.
Defined.

(** The state [Sample.vault] is the one the component reaches by adding
    the anvil and 4 coins to an empty container. *)
Lemma vault_reached :
  exists s1,
    AddNewItem (Some 0%nat) 1
      (Sample.empty_inventory [Sample.anvil; Sample.coins] 4 (of_int32 20000000)) = Ok tt s1
    /\ AddNewItem (Some 1%nat) 4 s1 = Ok tt Sample.vault.
Proof. eexists. split; vm_compute; reflexivity. Qed.

(** C5, as stated, fails: in the container that holds the anvil of weight
    16777216 and 4 coins of weight 0.5 each, removing 1 coin takes 1 off
    the quantity and returns 1, and TotalWeight, 16777218, is what it
    was: the difference 16777217.5 is no [float], and is rounded
    back. *)
Lemma RemoveAmountOfItem_keeps_TotalWeight :
  contained Sample.vault (Some 2%nat) = true
  /\ peek (Objects Sample.vault) (Some 2%nat) = Some Sample.held_coins
  /\ exists s',
    RemoveAmountOfItem (Some 2%nat) 1 Sample.vault
    = Ok (Z.min 1 (Quantity Sample.held_coins)) s'
    /\ Z.min 1 (Quantity Sample.held_coins) = 1
    /\ (Quantity <$> peek (Objects s') (Some 2%nat)) = Some 3
    /\ fmul (of_int32 1) (GetItemSingleWeight Sample.held_coins) = decimal 5 1
    /\ InventoryTotalWeight Sample.vault = of_int32 16777218
    /\ InventoryTotalWeight s' = of_int32 16777218
    /\ flt (InventoryTotalWeight s') (InventoryTotalWeight Sample.vault) = false.
Proof.
  split; [reflexivity|]. split; [reflexivity|].
  eexists. split; [vm_compute; reflexivity|].
  repeat split; vm_compute; reflexivity.
Qed.

(** ** Adding an instance *)

Lemma AddNewItem_run p n it s :
  peek (Objects s) p = Some it ->
  AddNewItem p n s
  = Ok tt (added (entry s p it) (instance s n it) (objects_after s p n it) s).
Proof.
  intros H. unfold entry, objects_after, instance.
  destruct (bIsCopy it || bIsPickup it) eqn:Hf.
  - by apply AddNewItem_absorb.
  - by apply AddNewItem_copy.
Qed.

Lemma peek_entry p n it s :
  peek (Objects s) p = Some it ->
  peek (objects_after s p n it) (entry s p it) = Some (instance s n it).
Proof.
  intros H. unfold entry, objects_after.
  destruct (bIsCopy it || bIsPickup it).
  - eapply peek_poke_eq, H.
  - apply peek_new.
Qed.

Lemma placed_quantity_le this n it : 1 <= n -> Quantity (placed this n it) <= n.
Proof.
  intros Hn. unfold placed, SetQuantity. simpl.
  destruct (bIsStackable _); simpl; unfold Clamp; lia.
Qed.

(** Adding [n >= 1] units and removing [n] from the new entry takes off
    TotalWeight the float weight that was added to it: the units that
    the stack did not take are not removed either. *)
Lemma add_then_remove p n it s :
  peek (Objects s) p = Some it -> 1 <= n ->
  exists s1 NewItem new s2,
    AddNewItem p n s = Ok tt s1
    /\ last (InventoryContents s1) = Some NewItem
    /\ peek (Objects s1) NewItem = Some new
    /\ RemoveAmountOfItem NewItem n s1 = Ok (Quantity new) s2
    /\ InventoryTotalWeight s1 = fadd (InventoryTotalWeight s) (GetItemStackWeight new)
    /\ InventoryTotalWeight s2 = fsub (InventoryTotalWeight s1) (GetItemStackWeight new).
Proof.
  intros H Hn.
  pose proof (peek_entry p n it s H) as Hnew.
  pose proof (placed_quantity_le (This s) n
                (if bIsCopy it || bIsPickup it then ResetItemFlags it else CreateItemCopy it) Hn) as Hle.
  fold (instance s n it) in Hle.
  eexists _, (entry s p it), (instance s n it), _.
  split; [by apply AddNewItem_run|]. split.
  { unfold added, TArray.Add. state_simpl. apply last_snoc. }
  split; [unfold added; state_simpl; exact Hnew|].
  split.
  { erewrite RemoveAmountOfItem_run by (unfold added; state_simpl; exact Hnew).
    by rewrite Z.min_r by exact Hle. }
  split; [reflexivity|].
  unfold removed, added. state_simpl.
  by rewrite Z.min_r by exact Hle.
Qed.

(** C8, as amended.  For every state and every item, [AddNewItem(item, 5)]
    followed by [RemoveAmountOfItem] of 5 on the entry it appended
    removes the units the entry holds and leaves TotalWeight at
    [(T + y) - y], the sum and the difference being those of floats,
    where [T] is TotalWeight before the add and [y] the stack weight of
    the entry.  That is [T] when [T] is 0 and [y] is finite. *)
Theorem AddNewItem_RemoveAmountOfItem_round_trip p it s :
  peek (Objects s) p = Some it ->
  exists s1 NewItem new s2,
    AddNewItem p 5 s = Ok tt s1
    /\ last (InventoryContents s1) = Some NewItem
    /\ peek (Objects s1) NewItem = Some new
    /\ RemoveAmountOfItem NewItem 5 s1 = Ok (Quantity new) s2
    /\ InventoryTotalWeight s2
       = fsub (fadd (InventoryTotalWeight s) (GetItemStackWeight new))
              (GetItemStackWeight new)
    /\ (InventoryTotalWeight s = of_int32 0 ->
        finite (GetItemStackWeight new) = true ->
        InventoryTotalWeight s2 = InventoryTotalWeight s).
Proof.
  intros H.
  destruct (add_then_remove p 5 it s H) as (s1 & e & new & s2 & H1 & H2 & H3 & H4 & H5 & H6);
    [lia|].
  exists s1, e, new, s2. rewrite H6, H5. repeat split; try done.
  intros -> Hy. by apply fsub_fadd_zero.
Qed.

Lemma AddNewItem_RemoveAmountOfItem_round_trip_witness :
  exists s1 NewItem new s2,
    AddNewItem (Some 0%nat) 5 (Sample.empty_inventory [Sample.potion] 4 (of_int32 100)) = Ok tt s1
    /\ last (InventoryContents s1) = Some NewItem
    /\ peek (Objects s1) NewItem = Some new
    /\ RemoveAmountOfItem NewItem 5 s1 = Ok 5 s2
    /\ InventoryTotalWeight s2 = of_int32 0.
Proof.
  destruct (AddNewItem_RemoveAmountOfItem_round_trip (Some 0%nat) Sample.potion
              (Sample.empty_inventory [Sample.potion] 4 (of_int32 100)) eq_refl)
    as (s1 & e & new & s2 & H1 & H2 & H3 & H4 & H5 & H6).
  exists s1, e, new, s2.
  vm_compute in H1. injection H1 as <-.
  vm_compute in H2. injection H2 as <-.
  vm_compute in H3. injection H3 as <-.
  repeat split; try done.
Defined.

(** The state [Sample.pouch] is the one the component reaches by adding
    the pebble to an empty container. *)
Lemma pouch_reached :
  AddNewItem (Some 0%nat) 1
    (Sample.empty_inventory [Sample.pebble; Sample.herbs] 4 (of_int32 100))
  = Ok tt Sample.pouch.
Proof. vm_compute. reflexivity. Qed.

(** C8, as stated, fails: in the container that holds the pebble,
    TotalWeight is 0.1f = 13421773 * 2^-27; after [AddNewItem] of 5 herbs
    of weight 0.3f each and [RemoveAmountOfItem] of the 5 it is
    13421776 * 2^-27. *)
Lemma AddNewItem_RemoveAmountOfItem_drifts :
  exists s1 s2,
    AddNewItem (Some 1%nat) 5 Sample.pouch = Ok tt s1
    /\ last (InventoryContents s1) = Some (Some 2%nat)
    /\ RemoveAmountOfItem (Some 2%nat) 5 s1 = Ok 5 s2
    /\ InventoryTotalWeight Sample.pouch = S754_finite false 13421773 (-27)
    /\ InventoryTotalWeight s2 = S754_finite false 13421776 (-27)
    /\ InventoryTotalWeight s2 <> InventoryTotalWeight Sample.pouch.
Proof.
  eexists _, _. split; [vm_compute; reflexivity|].
  split; [reflexivity|]. split; [vm_compute; reflexivity|].
  split; [vm_compute; reflexivity|]. split; [vm_compute; reflexivity|].
  vm_compute. discriminate.
Qed.

(** ** Splitting a stack *)

Lemma SplitExistingStack_with_room p k s :
  TArray.Num (InventoryContents s) + 1 <= InventorySlotsCapacity s ->
  SplitExistingStack p k s = (RemoveAmountOfItem p k;; AddNewItem p k) s.
Proof.
  intros H. unfold SplitExistingStack. rewrite !bind_gets.
  replace (_ >? _) with false; [done|]. symmetry. rewrite Z.gtb_ltb. apply Z.ltb_ge. lia.
Qed.

Lemma SplitExistingStack_without_room p k s :
  TArray.Num (InventoryContents s) + 1 > InventorySlotsCapacity s ->
  SplitExistingStack p k s = Ok tt s.
Proof.
  intros H. unfold SplitExistingStack. rewrite !bind_gets.
  replace (_ >? _) with true; [done|]. symmetry. rewrite Z.gtb_ltb. apply Z.ltb_lt. lia.
Qed.

(** C10.  When [SplitExistingStack] performs a split, the change
    notification is broadcast twice: once by the inner
    [RemoveAmountOfItem] and once by the inner [AddNewItem]. *)
Theorem SplitExistingStack_broadcasts_twice p k it s :
  peek (Objects s) p = Some it ->
  TArray.Num (InventoryContents s) + 1 <= InventorySlotsCapacity s ->
  exists actual s1 s2,
    RemoveAmountOfItem p k s = Ok actual s1
    /\ OnInventoryUpdated s1 = S (OnInventoryUpdated s)
    /\ AddNewItem p k s1 = Ok tt s2
    /\ OnInventoryUpdated s2 = S (OnInventoryUpdated s1)
    /\ SplitExistingStack p k s = Ok tt s2
    /\ OnInventoryUpdated s2 = (OnInventoryUpdated s + 2)%nat.
Proof.
  intros H Hcap.
  pose proof (RemoveAmountOfItem_run p k it s H) as Hrem.
  assert (peek (Objects (removed p it k s)) p
          = Some (SetQuantity (wrap32 (Quantity it - Z.min k (Quantity it))) it)) as H1.
  { unfold removed. state_simpl. eapply peek_poke_eq, H. }
  pose proof (AddNewItem_run p k _ _ H1) as Hadd.
  eexists _, _, _. split; [exact Hrem|]. split; [reflexivity|].
  split; [exact Hadd|]. split; [reflexivity|]. split.
  - rewrite SplitExistingStack_with_room by exact Hcap.
    by rewrite bind_run, Hrem.
  - unfold added, removed. state_simpl. lia.
Qed.

Lemma SplitExistingStack_broadcasts_twice_witness :
  exists s2,
    SplitExistingStack (Some 0%nat) 2 (Sample.holding Sample.held_potions 4 (of_int32 100))
    = Ok tt s2
    /\ OnInventoryUpdated s2 = 2%nat.
Proof.
  destruct (SplitExistingStack_broadcasts_twice (Some 0%nat) 2 Sample.held_potions
              (Sample.holding Sample.held_potions 4 (of_int32 100)) eq_refl)
    as (actual & s1 & s2 & _ & _ & _ & _ & Hsplit & Hcount).
  - vm_compute. discriminate.
  - exists s2. split; [exact Hsplit | exact Hcount].
Defined.

(** ** Queries *)

Lemma FindMatchingItem_unchanged p s : unchanged s (FindMatchingItem p s).
Proof.
  unfold FindMatchingItem. rewrite bind_gets.
  by destruct (nonnull p && TArray.Contains (InventoryContents s) p).
Qed.

Lemma FindNextItemByID_unchanged p s : unchanged s (FindNextItemByID p s).
Proof.
  unfold FindNextItemByID. destruct (nonnull p); [|done].
  rewrite bind_gets. by destruct (TArray.FindByKey _ _).
Qed.

(** C9.  [FindMatchingItem] and [FindNextItemByID] called with a null
    item return null and dereference nothing (a dereference of null is a
    [Fault]); whatever the item, a query that returns leaves the state,
    so Contents and TotalWeight, as it was. *)
Theorem queries_guard_null s :
  FindMatchingItem None s = Ok None s
  /\ FindNextItemByID None s = Ok None s
  /\ forall p, unchanged s (FindMatchingItem p s) /\ unchanged s (FindNextItemByID p s).
Proof.
  split; [reflexivity|]. split; [reflexivity|].
  intros p. split; [apply FindMatchingItem_unchanged | apply FindNextItemByID_unchanged].
Qed.

(** [FindNextPartialStack] has no such guard: with a null item, the
    predicate dereferences it at the first entry of Contents. *)
Lemma FindNextPartialStack_null s :
  InventoryContents s <> [] -> FindNextPartialStack None s = Fault.
Proof.
  intros Hc. unfold FindNextPartialStack. rewrite bind_gets.
  destruct (InventoryContents s) as [|x c]; [done|].
  rewrite bind_run. simpl. rewrite !bind_run. unfold load at 1.
  by destruct (peek (Objects s) x).
Qed.

Lemma FindNextPartialStack_null_empty s :
  InventoryContents s = [] -> FindNextPartialStack None s = Ok None s.
Proof.
  intros Hc. unfold FindNextPartialStack. rewrite bind_gets, Hc. reflexivity.
Qed.

(** C3: the code at the failing input.  A container that holds one sword
    is asked for the next partial stack of a null item; the operation
    dereferences the null item. *)
Theorem FindNextPartialStack_dereferences_null :
  FindNextPartialStack None (Sample.holding Sample.held_sword 4 (of_int32 100)) = Fault.
Proof. apply FindNextPartialStack_null. discriminate. Qed.

(** For an item that is there, the result is the first entry of the same
    ID that is not a full stack. *)
Lemma FindNextPartialStack_first p k s :
  peek (Objects s) p = Some k ->
  ContentsLive s ->
  FindNextPartialStack p s
  = Ok (default None (find (partial_match (Objects s) k) (InventoryContents s))) s.
Proof.
  intros Hk Hlive. unfold FindNextPartialStack, ContentsLive in *.
  rewrite bind_gets, bind_run.
  match goal with |- context [TArray.FindByPredicate ?c ?f s] =>
    assert (TArray.FindByPredicate c f s = Ok (find (partial_match (Objects s) k) c) s) as ->
  end.
  { induction (InventoryContents s) as [|x c IH]; [done|].
    apply Forall_cons in Hlive as [[e He] Hlive].
    cbn [TArray.FindByPredicate find].
    rewrite !bind_assoc, (bind_load _ _ _ _ He), bind_assoc.
    rewrite (bind_load _ _ _ _ Hk), bind_ret.
    unfold partial_match at 1. rewrite He.
    destruct (String.eqb (ID e) (ID k) && negb (IsFullItemStack e)); [done|].
    by apply IH. }
  by destruct (find _ _).
Qed.
(** ** Adding through the entry point *)

Lemma peek_target_after_add p n it s :
  peek (Objects s) p = Some it ->
  exists it', peek (objects_after s p n it) p = Some it'
              /\ ItemTextData it' = ItemTextData it.
Proof.
  intros H. unfold objects_after.
  destruct (bIsCopy it || bIsPickup it) eqn:Hf.
  - eexists. split; [eapply peek_poke_eq, H|].
    unfold instance, placed, SetQuantity. rewrite Hf. by destruct (bIsStackable _).
  - exists it. split; [by apply peek_grow | done].
Qed.

Lemma HandleNonStackableItems_run p it s :
  peek (Objects s) p = Some it ->
  HandleNonStackableItems p s
  = if no_weight it
    then Ok (AddedNone
               (Format "Could not add {0} to the inventory. Item Has No Weight!"
                  [ItemName (ItemTextData it)])) s
    else if overflows_weight s it
    then Ok (AddedNone
               (Format "Could not add {0} to the inventory. Item overflows weight limit!"
                  [ItemName (ItemTextData it)])) s
    else if no_free_slot s
    then Ok (AddedNone
               (Format "Could not add {0} to the inventory. No Free Inventory Slot!"
                  [ItemName (ItemTextData it)])) s
    else Ok (AddedAll 1
               (Format "Successfully added {0} to the inventory!"
                  [ItemName (ItemTextData it)]))
            (added (entry s p it) (instance s 1 it) (objects_after s p 1 it) s).
Proof.
  intros H. unfold HandleNonStackableItems, GetWeightCapacity.
  rewrite (bind_load _ _ _ _ H), !bind_gets.
  fold (no_weight it). fold (overflows_weight s it). fold (no_free_slot s).
  destruct (no_weight it); [done|].
  destruct (overflows_weight s it); [done|].
  destruct (no_free_slot s); [done|].
  rewrite bind_run, (AddNewItem_run _ _ _ _ H).
  destruct (peek_target_after_add p 1 it s H) as (it' & Hit' & Hname).
  erewrite bind_load by (unfold added; state_simpl; exact Hit').
  by rewrite Hname.
Qed.

Lemma HandleStackableItems_stub p n s : HandleStackableItems p n s = Ok 0 s.
Proof. reflexivity. Qed.

(** Whatever a stackable item asks for, the entry point changes nothing:
    [HandleStackableItems] admits 0 units. *)
Lemma HandleAddItem_stackable p it s :
  peek (Objects s) p = Some it ->
  bIsStackable (ItemNumericData it) = true ->
  exists r, HandleAddItem p s = Ok r s
            /\ OperationResult r <> IAR_PartialAmountItemAdded
            /\ (Quantity it <> 0 -> OperationResult r = IAR_NoItemAdded).
Proof.
  intros H Hs. unfold HandleAddItem. rewrite bind_gets.
  destruct (nonnull (Owner s)).
  - rewrite (bind_load _ _ _ _ H), Hs. cbn [negb].
    rewrite bind_run, HandleStackableItems_stub, (bind_load _ _ _ _ H).
    destruct (0 =? Quantity it) eqn:Hq.
    + eexists. split; [reflexivity|]. split; [done|].
      apply Z.eqb_eq in Hq. congruence.
    + rewrite andb_false_r. eexists. split; [reflexivity|]. by split.
  - eexists. split; [reflexivity|]. by split.
Qed.

Lemma HandleAddItem_single p it s :
  peek (Objects s) p = Some it ->
  bIsStackable (ItemNumericData it) = false ->
  nonnull (Owner s) = true ->
  HandleAddItem p s = HandleNonStackableItems p s.
Proof.
  intros H Hs Ho. unfold HandleAddItem.
  by rewrite bind_gets, Ho, (bind_load _ _ _ _ H), Hs.
Qed.

Lemma HandleAddItem_no_owner p s :
  nonnull (Owner s) = false ->
  HandleAddItem p s
  = Ok (AddedNone "Could not add item to the inventory. No Owner Found!") s.
Proof. intros Ho. unfold HandleAddItem. by rewrite bind_gets, Ho. Qed.

(** C2: the code at the scenario.  In a container of weight capacity 50,
    whatever its slots, the stackable item of weight 10, stack size 10
    and quantity 6 is not admitted at all: the result is AddedNone with
    amount 0, not AddedSome(5), and the state is as before. *)
Theorem HandleAddItem_scenario_adds_none slots :
  HandleAddItem (Some 0%nat) (Sample.empty_inventory [Sample.potion] slots (of_int32 50))
  = Ok (AddedNone "Could not add Potion to the inventory. No Remaining Slots / Invalid Item!")
       (Sample.empty_inventory [Sample.potion] slots (of_int32 50)).
Proof. reflexivity. Qed.

(** The helpers the stub leaves unused, on the example of the source:
    with capacity 90 and a total of 55, items of weight 10 fit 3 times;
    a stack of 6 out of 10 takes 4 more. *)
Lemma CalculateWeightAddAmount_example :
  exists s,
    CalculateWeightAddAmount (Some 0%nat) 6
      (with_TotalWeight (of_int32 55) (Sample.empty_inventory [Sample.potion] 4 (of_int32 90)))
    = Ok 3 s.
Proof. eexists. vm_compute. reflexivity. Qed.

(** The quotient is rounded before it is floored: with capacity 1 and
    nothing in the container, an item of weight 0.1f is counted 10
    times, the float quotient of 1 by 0.1f being 10. *)
Lemma CalculateWeightAddAmount_rounds_up :
  fdiv (of_int32 1) (decimal 1 1) = of_int32 10
  /\ exists s,
    CalculateWeightAddAmount (Some 0%nat) 20
      (Sample.empty_inventory [Sample.pebble] 4 (of_int32 1))
    = Ok 10 s.
Proof. split; [vm_compute; reflexivity|]. eexists. vm_compute. reflexivity. Qed.

Lemma CalculateNumberForFullStack_example :
  exists s,
    CalculateNumberForFullStack (Some 0%nat) 9
      (Sample.empty_inventory [Sample.potion] 4 (of_int32 90))
    = Ok 4 s.
Proof. eexists. vm_compute. reflexivity. Qed.

(** ** Non-stackable items *)

(** The tolerance is the float nearest to 1e-8. *)
Lemma UE_SMALL_NUMBER_decimal : UE_SMALL_NUMBER = decimal 1 8.
Proof. vm_compute. reflexivity. Qed.

(** The first test of [HandleNonStackableItems], nearly zero or negative,
    is a bound on the weight. *)
Lemma no_weight_spec it :
  no_weight it = fle (GetItemSingleWeight it) UE_SMALL_NUMBER.
Proof. apply IsNearlyZero_or_negative. Qed.

(** C6, as amended.  [HandleNonStackableItems] returns AddedNone, and
    leaves the state as it is, if and only if the single weight is at
    most 1e-8 (nearly zero, or negative), or the float sum of TotalWeight
    and the single weight exceeds WeightCapacity, or Contents has no free
    slot; otherwise it performs [AddNewItem(item, 1)] and returns
    AddedAll(1).  On the first rejection the message says that the item
    has no weight. *)
Theorem HandleNonStackableItems_outcome p it s :
  peek (Objects s) p = Some it ->
  exists r s',
    HandleNonStackableItems p s = Ok r s'
    /\ (OperationResult r = IAR_NoItemAdded <->
        fle (GetItemSingleWeight it) UE_SMALL_NUMBER = true
        \/ flt (InventoryWeightCapacity s)
               (fadd (InventoryTotalWeight s) (GetItemSingleWeight it)) = true
        \/ TArray.Num (InventoryContents s) + 1 > InventorySlotsCapacity s)
    /\ (OperationResult r = IAR_NoItemAdded -> s' = s)
    /\ (OperationResult r <> IAR_NoItemAdded ->
        AddNewItem p 1 s = Ok tt s'
        /\ OperationResult r = IAR_AllItemAdded /\ ActualAmountAdded r = 1)
    /\ (fle (GetItemSingleWeight it) UE_SMALL_NUMBER = true ->
        ResultMessage r
        = "Could not add " +:+ ItemName (ItemTextData it)
          +:+ " to the inventory. Item Has No Weight!").
Proof.
  intros H. rewrite (HandleNonStackableItems_run _ _ _ H), no_weight_spec.
  destruct (fle (GetItemSingleWeight it) UE_SMALL_NUMBER) eqn:Hw.
  { eexists _, _. split; [reflexivity|]. repeat split; try done.
    intros _. by left. }
  unfold overflows_weight, no_free_slot.
  destruct (flt _ _) eqn:Ho.
  { eexists _, _. split; [reflexivity|]. repeat split; try done.
    intros _. right. by left. }
  destruct (_ >? _) eqn:Hslot.
  { eexists _, _. split; [reflexivity|]. repeat split; try done.
    intros _. right. right. by apply Z.gtb_gt. }
  eexists _, _. split; [reflexivity|].
  split; [split; [done|]|].
  { intros [?|[?|Hgt]]; [done..|].
    apply Z.gtb_gt in Hgt. congruence. }
  split; [done|]. split; [|done].
  intros _. split; [by apply AddNewItem_run | done].
Qed.

Lemma HandleNonStackableItems_outcome_witness :
  exists r s',
    HandleNonStackableItems (Some 0%nat)
      (Sample.empty_inventory [Sample.sword] 4 (of_int32 100)) = Ok r s'
    /\ OperationResult r = IAR_AllItemAdded
    /\ InventoryContents s' = [Some 0%nat].
Proof.
  destruct (HandleNonStackableItems_outcome (Some 0%nat) Sample.sword
              (Sample.empty_inventory [Sample.sword] 4 (of_int32 100)) eq_refl)
    as (r & s' & Hrun & Hiff & _ & Hadd & _).
  exists r, s'. split; [exact Hrun|].
  assert (OperationResult r <> IAR_NoItemAdded) as Hne.
  { intros Hnone. apply Hiff in Hnone as [Hw|[Hw|Hn]].
    - revert Hw. by vm_compute.
    - revert Hw. by vm_compute.
    - revert Hn. by vm_compute. }
  destruct (Hadd Hne) as (Hs' & Hall & _).
  split; [exact Hall|].
  vm_compute in Hs'. injection Hs' as <-. reflexivity.
Defined.

(** C6, as stated, fails: an item whose weight 5e-9f is positive, in an
    empty container with room for it, is rejected for having no weight:
    its weight is not at most 0, the sum with TotalWeight does not exceed
    the capacity 100 and a slot is free. *)
Lemma HandleNonStackableItems_rejects_positive_weight :
  HandleNonStackableItems (Some 0%nat)
    (Sample.empty_inventory [Sample.feather] 4 (of_int32 100))
  = Ok (AddedNone "Could not add Feather to the inventory. Item Has No Weight!")
       (Sample.empty_inventory [Sample.feather] 4 (of_int32 100))
  /\ flt (of_int32 0) (GetItemSingleWeight Sample.feather) = true
  /\ ~ (fle (GetItemSingleWeight Sample.feather) (of_int32 0) = true
        \/ flt (of_int32 100) (fadd (of_int32 0) (GetItemSingleWeight Sample.feather)) = true
        \/ TArray.Num [] + 1 > 4).
Proof.
  split; [by vm_compute|]. split; [by vm_compute|].
  intros [H|[H|H]]; revert H; by vm_compute.
Qed.

(** ** The slot bound *)

Lemma RemoveSingle_length c p : (length (TArray.RemoveSingle c p) <= length c)%nat.
Proof.
  induction c as [|x c IH]; simpl; [lia|].
  case_bool_decide; simpl; lia.
Qed.

(** C7.  Each operation of the public set, given an item that is there
    whenever the operation reads it, completes and keeps the number of
    entries of Contents within SlotsCapacity, if it was within
    SlotsCapacity before. *)
Theorem public_operations_keep_slots o s :
  public o = true ->
  (dereferences s o = true -> is_Some (peek (Objects s) (target o))) ->
  SlotsInvariant s ->
  exists s', perform o s = Ok tt s' /\ SlotsInvariant s'.
Proof.
  unfold SlotsInvariant, TArray.Num.
  intros Hpub Hobj Hinv.
  destruct o as [p n|p|p n|p n|p]; [done|..]; cbn [perform dereferences target] in *.
  - eexists. split; [reflexivity|]. state_simpl.
    pose proof (RemoveSingle_length (InventoryContents s) p). lia.
  - destruct (Hobj eq_refl) as [it H].
    rewrite bind_run, (RemoveAmountOfItem_run _ _ _ _ H).
    eexists. split; [reflexivity|]. unfold removed. by state_simpl.
  - destruct (Z_le_gt_dec (TArray.Num (InventoryContents s) + 1)
                (InventorySlotsCapacity s)) as [Hroom|Hfull].
    + destruct Hobj as [it H].
      { apply negb_true_iff. rewrite Z.gtb_ltb. apply Z.ltb_ge. exact Hroom. }
      rewrite (SplitExistingStack_with_room _ _ _ Hroom).
      rewrite bind_run, (RemoveAmountOfItem_run _ _ _ _ H).
      erewrite AddNewItem_run
        by (unfold removed; state_simpl; eapply peek_poke_eq, H).
      eexists. split; [reflexivity|].
      unfold added, removed, TArray.Add, TArray.Num in *. state_simpl.
      rewrite length_app. simpl. lia.
    + rewrite (SplitExistingStack_without_room _ _ _ Hfull). by exists s.
  - destruct (nonnull (Owner s)) eqn:Ho.
    2:{ rewrite bind_run, (HandleAddItem_no_owner _ _ Ho). by exists s. }
    destruct (Hobj eq_refl) as [it H].
    destruct (bIsStackable (ItemNumericData it)) eqn:Hs.
    { destruct (HandleAddItem_stackable _ _ _ H Hs) as (r & Hr & _).
      rewrite bind_run, Hr. by exists s. }
    rewrite bind_run, (HandleAddItem_single _ _ _ H Hs Ho).
    rewrite (HandleNonStackableItems_run _ _ _ H).
    destruct (no_weight it); [by exists s|].
    destruct (overflows_weight s it); [by exists s|].
    unfold no_free_slot, TArray.Num.
    destruct (_ >? _) eqn:Hslot; [by exists s|].
    eexists. split; [reflexivity|].
    unfold added, TArray.Add. state_simpl.
    rewrite length_app. simpl.
    rewrite Z.gtb_ltb in Hslot. apply Z.ltb_ge in Hslot. lia.
Qed.

Lemma public_operations_keep_slots_witness :
  exists s',
    perform (OpHandleAddItem (Some 0%nat))
      (Sample.empty_inventory [Sample.sword] 1 (of_int32 100)) = Ok tt s'
    /\ SlotsInvariant s'.
Proof.
  apply (public_operations_keep_slots (OpHandleAddItem (Some 0%nat))
           (Sample.empty_inventory [Sample.sword] 1 (of_int32 100))).
  - reflexivity.
  - intros _. simpl. eauto.
  - unfold SlotsInvariant, TArray.Num. simpl. lia.
Defined.

(** ** Splitting, in detail *)

Lemma poke_length p x (h : list UItemBase) : length (poke p x h) = length h.
Proof. destruct p; simpl; [apply length_insert | done]. Qed.

Lemma flagged_SetQuantity n it : flagged (SetQuantity n it) = flagged it.
Proof. unfold flagged. by destruct (SetQuantity_flags n it) as [-> ->]. Qed.

(** C4: the code at the failing input.  [AddNewItem] of 5 potions into
    an empty container with 4 slots creates the stack as a copy, which
    keeps [bIsCopy]; the stack is in Contents, its quantity 5 is at
    least 2 and a slot is free.  [SplitExistingStack] of 2 from it then
    makes [AddNewItem] take the stack itself for an instance to absorb:
    no object is created, Contents ends with the same object twice, of
    quantity 2, so the quantities of the two entries sum to 4 and not to
    5, and TotalWeight is 50 against the weight 40 of Contents. *)
Theorem SplitExistingStack_of_a_copy_aliases :
  exists s1 s2,
    AddNewItem (Some 0%nat) 5 (Sample.empty_inventory [Sample.potion] 4 (of_int32 100))
    = Ok tt s1
    /\ InventoryContents s1 = [Some 1%nat]
    /\ peek (Objects s1) (Some 1%nat) = Some Sample.held_potions
    /\ bIsCopy Sample.held_potions = true
    /\ Quantity Sample.held_potions >= 2
    /\ TArray.Num (InventoryContents s1) + 1 <= InventorySlotsCapacity s1
    /\ SplitExistingStack (Some 1%nat) 2 s1 = Ok tt s2
    /\ InventoryContents s2 = [Some 1%nat; Some 1%nat]
    /\ length (Objects s2) = length (Objects s1)
    /\ (Quantity <$> peek (Objects s2) (Some 1%nat)) = Some 2
    /\ 2 + 2 <> Quantity Sample.held_potions
    /\ InventoryTotalWeight s2 = of_int32 50
    /\ ContentsWeight s2 = of_int32 40.
Proof.
  eexists _, _. split; [vm_compute; reflexivity|].
  split; [reflexivity|]. split; [reflexivity|]. split; [reflexivity|].
  split; [by vm_compute|]. split; [by vm_compute|].
  split; [vm_compute; reflexivity|].
  split; [reflexivity|]. split; [reflexivity|]. split; [reflexivity|].
  split; [by vm_compute|].
  split; vm_compute; reflexivity.
Qed.

(** ** The weight of Contents *)

Section Weights.

Implicit Types (h : list UItemBase) (c : list UItemPtr) (p q : UItemPtr).

Lemma weight_at_poke_ne h p q x : p <> q -> weight_at (poke p x h) q = weight_at h q.
Proof. intros Hne. unfold weight_at. by rewrite peek_poke_ne. Qed.

Lemma stack_weights_poke_notin h p x c :
  p ∉ c -> stack_weights (poke p x h) c = stack_weights h c.
Proof.
  induction c as [|y c IH]; simpl; [done|].
  intros [Hne Hnotin]%not_elem_of_cons.
  by rewrite IH, weight_at_poke_ne.
Qed.

Lemma RemoveSingle_notin c p : p ∉ c -> TArray.RemoveSingle c p = c.
Proof.
  induction c as [|y c IH]; simpl; [done|].
  intros [Hne Hnotin]%not_elem_of_cons.
  rewrite bool_decide_eq_false_2 by congruence. by rewrite IH.
Qed.

End Weights.

Lemma contained_spec s p : contained s p = true <-> p ∈ InventoryContents s.
Proof. unfold contained, TArray.Contains. apply bool_decide_eq_true. Qed.

(** ** The weight accounting, operation by operation *)





(** The float operations themselves let TotalWeight drift from the
    weight of Contents: in the container that holds the pebble, after
    [AddNewItem] of 5 herbs and [RemoveAmountOfItem] of the 5, Contents
    weighs 0.1f = 13421773 * 2^-27, the pebble and an empty stack, and
    TotalWeight is 13421776 * 2^-27. *)
Lemma weight_accounting_drifts :
  InventoryTotalWeight Sample.pouch = ContentsWeight Sample.pouch
  /\ exists s1 s2,
    AddNewItem (Some 1%nat) 5 Sample.pouch = Ok tt s1
    /\ RemoveAmountOfItem (Some 2%nat) 5 s1 = Ok 5 s2
    /\ InventoryContents s2 = [Some 0%nat; Some 2%nat]
    /\ ContentsWeight s2 = S754_finite false 13421773 (-27)
    /\ InventoryTotalWeight s2 = S754_finite false 13421776 (-27).
Proof.
  split; [vm_compute; reflexivity|].
  eexists _, _. split; [vm_compute; reflexivity|].
  split; [vm_compute; reflexivity|]. split; [reflexivity|].
  split; vm_compute; reflexivity.
Qed.
(** * Further properties of the component *)

(** ** Searches of Contents *)

Lemma find_first {A} (f : A -> bool) (l : list A) x :
  find f l = Some x ->
  exists i, l !! i = Some x /\ f x = true
            /\ forall j y, (j < i)%nat -> l !! j = Some y -> f y = false.
Proof.
  induction l as [|a l IH]; simpl; [done|].
  destruct (f a) eqn:Ha.
  - intros [= ->]. exists 0%nat. split; [done|]. split; [done|]. intros j y Hj. lia.
  - intros (i & Hi & Hx & Hfirst)%IH. exists (S i). split; [done|]. split; [done|].
    intros [|j] y Hj; simpl.
    + by intros [= <-].
    + apply Hfirst. lia.
Qed.

Lemma find_first_such (f : UItemPtr -> bool) c :
  first_such f c (default None (find f c)).
Proof.
  destruct (find f c) as [x|] eqn:Hfind; simpl.
  - left. by apply find_first.
  - right. split; [done|]. intros y Hy%list_elem_of_In.
    by eapply find_none in Hfind.
Qed.

Lemma live_entry s x :
  ContentsLive s -> x ∈ InventoryContents s -> exists e, peek (Objects s) x = Some e.
Proof. intros Hlive Hx. by eapply Forall_forall in Hlive. Qed.

(** A search by key finds the key itself, if anything. *)
Lemma FindByKey_spec c p :
  TArray.FindByKey c p = if bool_decide (p ∈ c) then Some p else None.
Proof.
  unfold TArray.FindByKey. induction c as [|x c IH]; simpl; [done|].
  destruct (decide (x = p)) as [->|Hne].
  - rewrite !bool_decide_eq_true_2; [done | by left | done].
  - rewrite (bool_decide_eq_false_2 (x = p)) by done. rewrite IH.
    destruct (decide (p ∈ c)) as [Hin|Hnotin].
    + rewrite !bool_decide_eq_true_2; [done | by right | done].
    + rewrite !bool_decide_eq_false_2; [done | | done].
      intros [->|?]%elem_of_cons; done.
Qed.

(** X1.  [FindNextItemByID] looks for the pointer it is given, not for
    an ID: whatever the item, designating an object or not, it reads no
    object, leaves the state as it is, and returns the item itself when
    it is an entry of Contents and null otherwise, which is what
    [FindMatchingItem] returns. *)
Theorem FindNextItemByID_by_address p s :
  FindNextItemByID p s = Ok (if contained s p then p else None) s
  /\ FindNextItemByID p s = FindMatchingItem p s.
Proof.
  unfold FindNextItemByID, FindMatchingItem, contained, TArray.Contains.
  rewrite !bind_gets. destruct p as [a|]; simpl.
  - rewrite bind_gets, FindByKey_spec. by case_bool_decide.
  - by case_bool_decide.
Qed.

(** Two objects of one ID are two items to it: on the shelf, asked for a
    new stack of potions that is not in Contents, it returns null,
    although the shelf holds two stacks of potions. *)
Lemma FindNextItemByID_same_ID :
  FindNextItemByID (Some 3%nat) (Sample.beside Sample.held_potions Stock.shelf)
  = Ok None (Sample.beside Sample.held_potions Stock.shelf)
  /\ (ID <$> peek (Objects (Sample.beside Sample.held_potions Stock.shelf)) (Some 3%nat))
     = (ID <$> peek (Objects (Sample.beside Sample.held_potions Stock.shelf)) (Some 0%nat)).
Proof. split; reflexivity. Qed.

(** X2.  [FindNextPartialStack] on an item that is there, over live
    Contents, returns the first entry of the item's ID that is not a
    full stack, and null when every entry of that ID is full; the state
    is as before. *)
Theorem FindNextPartialStack_first_partial p k s :
  peek (Objects s) p = Some k ->
  ContentsLive s ->
  exists r,
    FindNextPartialStack p s = Ok r s
    /\ first_such (partial_match (Objects s) k) (InventoryContents s) r.
Proof.
  intros Hk Hlive. rewrite (FindNextPartialStack_first _ _ _ Hk Hlive).
  eexists. split; [reflexivity|]. apply find_first_such.
Qed.

Lemma FindNextPartialStack_first_partial_witness :
  FindNextPartialStack (Some 0%nat) Stock.shelf = Ok (Some 1%nat) Stock.shelf.
Proof.
  destruct (FindNextPartialStack_first_partial (Some 0%nat) Stock.full_potions Stock.shelf)
    as (r & Hrun & _).
  - reflexivity.
  - repeat constructor; simpl; eauto.
  - rewrite Hrun. vm_compute in Hrun. by injection Hrun as <-.
Defined.

(** ** Entries come and go *)

Lemma entry_fresh p it s :
  peek (Objects s) p = Some it ->
  ContentsLive s ->
  flagged it && contained s p = false ->
  entry s p it ∉ InventoryContents s.
Proof.
  intros H Hlive Hfresh. unfold entry. unfold flagged in Hfresh.
  destruct (bIsCopy it || bIsPickup it); simpl in Hfresh.
  - intros Hin%contained_spec. congruence.
  - intros Hin. destruct (live_entry s _ Hlive Hin) as [y Hy].
    by apply peek_new_ne in Hy.
Qed.

Lemma entry_nonnull p it s : peek (Objects s) p = Some it -> nonnull (entry s p it) = true.
Proof.
  intros H. unfold entry. destruct (bIsCopy it || bIsPickup it); [|done].
  by destruct p.
Qed.

Lemma RemoveSingle_first c1 c2 p :
  p ∉ c1 -> TArray.RemoveSingle (c1 ++ p :: c2) p = c1 ++ c2.
Proof.
  induction c1 as [|x c1 IH]; simpl.
  - intros _. by rewrite bool_decide_eq_true_2.
  - intros [Hne Hnotin]%not_elem_of_cons.
    rewrite bool_decide_eq_false_2 by congruence. by rewrite IH.
Qed.

(** X3.  An entry that [AddNewItem] appends is found by
    [FindMatchingItem]; [RemoveSingleInstanceOfItem] on it gives back
    the Contents of before the add, and then [FindMatchingItem] returns
    null.  The item is there, Contents is live, and an instance that is
    absorbed is not in Contents yet. *)
Theorem AddNewItem_find_remove_round_trip p n it s :
  peek (Objects s) p = Some it ->
  ContentsLive s ->
  flagged it && contained s p = false ->
  exists s1 e s2,
    AddNewItem p n s = Ok tt s1
    /\ last (InventoryContents s1) = Some e
    /\ FindMatchingItem e s1 = Ok e s1
    /\ RemoveSingleInstanceOfItem e s1 = Ok tt s2
    /\ InventoryContents s2 = InventoryContents s
    /\ FindMatchingItem e s2 = Ok None s2.
Proof.
  intros H Hlive Hfresh.
  pose proof (entry_fresh _ _ _ H Hlive Hfresh) as Hnotin.
  pose proof (entry_nonnull _ _ _ H) as Hnonnull.
  eexists _, (entry s p it), _.
  split; [by apply AddNewItem_run|].
  split; [unfold added, TArray.Add; state_simpl; apply last_snoc|].
  split.
  { unfold FindMatchingItem. rewrite bind_gets, Hnonnull.
    unfold added, TArray.Add, TArray.Contains. state_simpl.
    rewrite bool_decide_eq_true_2; [done|].
    apply elem_of_app. right. by apply list_elem_of_singleton. }
  split; [reflexivity|].
  assert (TArray.RemoveSingle (InventoryContents s ++ [entry s p it]) (entry s p it)
          = InventoryContents s) as Hback.
  { rewrite RemoveSingle_first by done. apply app_nil_r. }
  unfold added, TArray.Add. state_simpl.
  split; [exact Hback|].
  unfold FindMatchingItem. rewrite bind_gets. state_simpl.
  rewrite Hback, Hnonnull. unfold TArray.Contains.
  by rewrite bool_decide_eq_false_2.
Qed.

Lemma AddNewItem_find_remove_round_trip_witness :
  exists s1 e s2,
    AddNewItem (Some 2%nat) 3 Stock.shelf = Ok tt s1
    /\ last (InventoryContents s1) = Some e
    /\ FindMatchingItem e s1 = Ok e s1
    /\ RemoveSingleInstanceOfItem e s1 = Ok tt s2
    /\ InventoryContents s2 = InventoryContents Stock.shelf
    /\ FindMatchingItem e s2 = Ok None s2.
Proof.
  apply (AddNewItem_find_remove_round_trip (Some 2%nat) 3 Sample.held_sword Stock.shelf).
  - reflexivity.
  - repeat constructor; simpl; eauto.
  - reflexivity.
Defined.

(** X4.  [RemoveSingleInstanceOfItem] always completes, null item
    included, and always broadcasts, also when the item is not in
    Contents and nothing is removed.  It removes the first occurrence of
    the pointer only, and touches neither the objects (the evicted
    instance keeps its quantity and its owner) nor TotalWeight nor the
    capacities. *)
Theorem RemoveSingleInstanceOfItem_first_occurrence p s :
  exists s',
    RemoveSingleInstanceOfItem p s = Ok tt s'
    /\ Objects s' = Objects s
    /\ InventoryTotalWeight s' = InventoryTotalWeight s
    /\ InventorySlotsCapacity s' = InventorySlotsCapacity s
    /\ InventoryWeightCapacity s' = InventoryWeightCapacity s
    /\ OnInventoryUpdated s' = S (OnInventoryUpdated s)
    /\ (p ∉ InventoryContents s -> InventoryContents s' = InventoryContents s)
    /\ (forall c1 c2, InventoryContents s = c1 ++ p :: c2 -> p ∉ c1 ->
        InventoryContents s' = c1 ++ c2).
Proof.
  eexists. split; [reflexivity|]. state_simpl.
  repeat split.
  - apply RemoveSingle_notin.
  - intros c1 c2 -> Hnotin. by apply RemoveSingle_first.
Qed.

(** ** How many units fill a stack *)

(** X6.  The amount [CalculateNumberForFullStack] returns is at most the
    amount asked for and never takes the stack past MaxStackSize; it is
    either the whole amount or exactly what fills the stack.  The state
    is as before. *)
Theorem CalculateNumberForFullStack_never_overfills p n it s :
  peek (Objects s) p = Some it ->
  exists r,
    CalculateNumberForFullStack p n s = Ok r s
    /\ r <= n
    /\ Quantity it + r <= MaxStackSize (ItemNumericData it)
    /\ (r = n \/ Quantity it + r = MaxStackSize (ItemNumericData it)).
Proof.
  intros H. unfold CalculateNumberForFullStack. rewrite (bind_load _ _ _ _ H).
  eexists. split; [reflexivity|]. lia.
Qed.

Lemma CalculateNumberForFullStack_never_overfills_witness :
  exists r,
    CalculateNumberForFullStack (Some 1%nat) 8 Stock.shelf = Ok r Stock.shelf
    /\ r <= 8 /\ 5 + r <= 10 /\ (r = 8 \/ 5 + r = 10).
Proof.
  exact (CalculateNumberForFullStack_never_overfills (Some 1%nat) 8
           Sample.held_potions Stock.shelf eq_refl).
Defined.

(** ** The entry point, case by case *)

Lemma HandleAddItem_stackable_run p it s :
  peek (Objects s) p = Some it ->
  bIsStackable (ItemNumericData it) = true ->
  nonnull (Owner s) = true ->
  HandleAddItem p s
  = Ok (if 0 =? Quantity it
        then AddedAll (Quantity it)
               (Format "Successfully added {0} {1} to the inventory!"
                  [ItemName (ItemTextData it); pretty 0])
        else AddedNone
               (Format "Could not add {0} to the inventory. No Remaining Slots / Invalid Item!"
                  [ItemName (ItemTextData it)])) s.
Proof.
  intros H Hs Ho. unfold HandleAddItem.
  rewrite bind_gets, Ho, (bind_load _ _ _ _ H), Hs. cbn [negb].
  rewrite bind_run, HandleStackableItems_stub, (bind_load _ _ _ _ H).
  destruct (0 =? Quantity it); [done|]. by rewrite andb_false_r.
Qed.

Lemma HandleAddItem_fault p s :
  nonnull (Owner s) = true -> peek (Objects s) p = None -> HandleAddItem p s = Fault.
Proof.
  intros Ho H. unfold HandleAddItem.
  by rewrite bind_gets, Ho, bind_run, (load_fault _ _ H).
Qed.

(** The stack weight of the one unit of a non-stackable item. *)
Lemma instance_single_weight s n it :
  bIsStackable (ItemNumericData it) = false ->
  GetItemStackWeight (instance s n it) = fmul (of_int32 1) (GetItemSingleWeight it).
Proof.
  intros Hs. unfold instance, placed, SetQuantity, GetItemStackWeight, GetItemSingleWeight.
  destruct (bIsCopy it || bIsPickup it); simpl; by rewrite Hs.
Qed.

(** X7.  [HandleAddItem] is all or nothing: whenever it returns, the
    result is never AddedSome, the amount added is 0 or 1, and a result
    AddedNone leaves the state as it was.  It fails in one case only:
    the component has an owner and the item designates no object. *)
Theorem HandleAddItem_all_or_nothing p s :
  match HandleAddItem p s with
  | Ok r s' =>
      OperationResult r <> IAR_PartialAmountItemAdded
      /\ (ActualAmountAdded r = 0 \/ ActualAmountAdded r = 1)
      /\ (OperationResult r = IAR_NoItemAdded -> s' = s)
  | Fault => nonnull (Owner s) = true /\ peek (Objects s) p = None
  end.
Proof.
  assert (forall msg, (fun r : FItemAddResult =>
            OperationResult r <> IAR_PartialAmountItemAdded
            /\ (ActualAmountAdded r = 0 \/ ActualAmountAdded r = 1)
            /\ (OperationResult r = IAR_NoItemAdded -> s = s)) (AddedNone msg)) as Hnone.
  { intros msg. split; [done|]. split; [by left | done]. }
  destruct (nonnull (Owner s)) eqn:Ho.
  2:{ rewrite (HandleAddItem_no_owner _ _ Ho). apply Hnone. }
  destruct (peek (Objects s) p) as [it|] eqn:H.
  2:{ by rewrite (HandleAddItem_fault _ _ Ho H). }
  destruct (bIsStackable (ItemNumericData it)) eqn:Hs.
  - rewrite (HandleAddItem_stackable_run _ _ _ H Hs Ho).
    destruct (0 =? Quantity it) eqn:Hq; [|apply Hnone].
    apply Z.eqb_eq in Hq. simpl. split; [done|]. split; [by left | done].
  - rewrite (HandleAddItem_single _ _ _ H Hs Ho), (HandleNonStackableItems_run _ _ _ H).
    destruct (no_weight it); [apply Hnone|].
    destruct (overflows_weight s it); [apply Hnone|].
    destruct (no_free_slot s); [apply Hnone|].
    simpl. split; [done|]. split; [by right | done].
Qed.

(** X8.  For a stackable item, of a component with an owner,
    [HandleAddItem] admits nothing and leaves the state as it was; the
    result is AddedNone, except for an item of quantity 0, for which it
    is AddedAll with amount 0. *)
Theorem HandleAddItem_stackable_admits_nothing p it s :
  peek (Objects s) p = Some it ->
  bIsStackable (ItemNumericData it) = true ->
  nonnull (Owner s) = true ->
  exists r,
    HandleAddItem p s = Ok r s
    /\ ActualAmountAdded r = 0
    /\ (Quantity it = 0 -> OperationResult r = IAR_AllItemAdded)
    /\ (Quantity it <> 0 -> OperationResult r = IAR_NoItemAdded).
Proof.
  intros H Hs Ho. rewrite (HandleAddItem_stackable_run _ _ _ H Hs Ho).
  eexists. split; [reflexivity|].
  destruct (Z.eqb_spec 0 (Quantity it)) as [Hq|Hq]; simpl.
  - split; [done|]. split; [done|]. congruence.
  - split; [done|]. split; [congruence | done].
Qed.

Lemma HandleAddItem_stackable_admits_nothing_witness :
  exists r,
    HandleAddItem (Some 0%nat)
      (Sample.empty_inventory [with_Quantity 0 Sample.potion] 4 (of_int32 50))
    = Ok r (Sample.empty_inventory [with_Quantity 0 Sample.potion] 4 (of_int32 50))
    /\ ActualAmountAdded r = 0
    /\ OperationResult r = IAR_AllItemAdded.
Proof.
  destruct (HandleAddItem_stackable_admits_nothing (Some 0%nat)
              (with_Quantity 0 Sample.potion)
              (Sample.empty_inventory [with_Quantity 0 Sample.potion] 4 (of_int32 50))
              eq_refl eq_refl eq_refl) as (r & Hrun & Hamount & Hall & _).
  exists r. split; [exact Hrun|]. split; [exact Hamount|]. by apply Hall.
Defined.

(** X9.  [HandleAddItem] never overloads the container: if TotalWeight is
    within WeightCapacity before, and the item is there, with a weight
    that is a finite number, whenever the component has an owner, the
    operation completes with TotalWeight within the same
    WeightCapacity. *)
Theorem HandleAddItem_within_weight p s :
  fle (InventoryTotalWeight s) (InventoryWeightCapacity s) = true ->
  (nonnull (Owner s) = true ->
   exists it, peek (Objects s) p = Some it /\ finite (GetItemSingleWeight it) = true) ->
  exists r s',
    HandleAddItem p s = Ok r s'
    /\ InventoryWeightCapacity s' = InventoryWeightCapacity s
    /\ fle (InventoryTotalWeight s') (InventoryWeightCapacity s') = true.
Proof.
  intros Hle Hobj.
  destruct (nonnull (Owner s)) eqn:Ho.
  2:{ rewrite (HandleAddItem_no_owner _ _ Ho). by eexists _, _. }
  destruct (Hobj eq_refl) as (it & H & Hfin).
  destruct (bIsStackable (ItemNumericData it)) eqn:Hs.
  { rewrite (HandleAddItem_stackable_run _ _ _ H Hs Ho). by eexists _, _. }
  rewrite (HandleAddItem_single _ _ _ H Hs Ho), (HandleNonStackableItems_run _ _ _ H).
  destruct (no_weight it); [by eexists _, _|].
  unfold overflows_weight. destruct (flt _ _) eqn:Hover; [by eexists _, _|].
  destruct (no_free_slot s); [by eexists _, _|].
  eexists _, _. split; [reflexivity|]. unfold added. state_simpl.
  split; [done|].
  rewrite (instance_single_weight _ _ _ Hs), (fmul_one _ (finite_valid _ Hfin)).
  destruct (fle_not_nan _ _ Hle) as [Ht Hcap].
  apply flt_false_fle; [|done..]. by apply fadd_not_nan.
Qed.

Lemma HandleAddItem_within_weight_witness :
  exists r s',
    HandleAddItem (Some 2%nat) Stock.shelf = Ok r s'
    /\ InventoryWeightCapacity s' = of_int32 200
    /\ fle (InventoryTotalWeight s') (InventoryWeightCapacity s') = true.
Proof.
  apply (HandleAddItem_within_weight (Some 2%nat) Stock.shelf).
  - by vm_compute.
  - intros _. exists Sample.held_sword. split; [reflexivity | by vm_compute].
Defined.

(** X10.  [HandleAddItem] notifies exactly when it changes something.
    With the item there whenever the component has an owner, either the
    state is untouched, broadcast counter included, or there is one
    broadcast, one more entry in Contents, TotalWeight has become the
    float sum of TotalWeight and the stack weight of the one unit, which
    for a weight of the type is the single weight, and the result is
    AddedAll with amount 1. *)
Theorem HandleAddItem_notifies_on_change p s :
  (nonnull (Owner s) = true -> is_Some (peek (Objects s) p)) ->
  exists r s',
    HandleAddItem p s = Ok r s'
    /\ (s' = s
        \/ (OnInventoryUpdated s' = S (OnInventoryUpdated s)
            /\ length (InventoryContents s') = S (length (InventoryContents s))
            /\ (exists it,
                  peek (Objects s) p = Some it
                  /\ InventoryTotalWeight s'
                     = fadd (InventoryTotalWeight s)
                         (fmul (of_int32 1) (GetItemSingleWeight it))
                  /\ (valid (GetItemSingleWeight it) = true ->
                      InventoryTotalWeight s'
                      = fadd (InventoryTotalWeight s) (GetItemSingleWeight it)))
            /\ OperationResult r = IAR_AllItemAdded
            /\ ActualAmountAdded r = 1)).
Proof.
  intros Hobj.
  destruct (nonnull (Owner s)) eqn:Ho.
  2:{ rewrite (HandleAddItem_no_owner _ _ Ho). eexists _, _. split; [reflexivity | by left]. }
  destruct (Hobj eq_refl) as [it H].
  destruct (bIsStackable (ItemNumericData it)) eqn:Hs.
  { rewrite (HandleAddItem_stackable_run _ _ _ H Hs Ho).
    eexists _, _. split; [reflexivity | by left]. }
  rewrite (HandleAddItem_single _ _ _ H Hs Ho), (HandleNonStackableItems_run _ _ _ H).
  destruct (no_weight it); [eexists _, _; split; [reflexivity | by left]|].
  destruct (overflows_weight s it); [eexists _, _; split; [reflexivity | by left]|].
  destruct (no_free_slot s); [eexists _, _; split; [reflexivity | by left]|].
  eexists _, _. split; [reflexivity|]. right.
  unfold added, TArray.Add. state_simpl.
  split; [done|]. split; [rewrite length_app; simpl; lia|].
  split; [|done]. exists it. split; [done|].
  rewrite (instance_single_weight _ _ _ Hs). split; [done|].
  intros Hv. by rewrite (fmul_one _ Hv).
Qed.

Lemma HandleAddItem_notifies_on_change_witness :
  exists r s',
    HandleAddItem (Some 2%nat) Stock.shelf = Ok r s'
    /\ OnInventoryUpdated s' = 1%nat
    /\ length (InventoryContents s') = 4%nat.
Proof.
  destruct (HandleAddItem_notifies_on_change (Some 2%nat) Stock.shelf)
    as (r & s' & Hrun & Hcase).
  - intros _. simpl. eauto.
  - exists r, s'. split; [exact Hrun|].
    vm_compute in Hrun. injection Hrun as <- <-. by split.
Defined.

(** ** What [AddNewItem] touches *)

Lemma placed_fields this n it :
  ID (placed this n it) = ID it
  /\ ItemNumericData (placed this n it) = ItemNumericData it
  /\ OwningInventory (placed this n it) = Some this
  /\ bIsCopy (placed this n it) = bIsCopy it
  /\ bIsPickup (placed this n it) = bIsPickup it.
Proof. unfold placed, SetQuantity. simpl. by destruct (bIsStackable _). Qed.

(** X11.  [AddNewItem] on an item that is there appends one entry, whose
    object has the ID and the numeric data of the item and this
    inventory as owner, and changes no other object.  For an item that
    is a copy or a pickup the entry is the item itself, with both flags
    cleared; otherwise the entry is a new object marked as a copy, and
    the item itself is left as it was. *)
Theorem AddNewItem_frame p n it s :
  peek (Objects s) p = Some it ->
  exists s' e new,
    AddNewItem p n s = Ok tt s'
    /\ InventoryContents s' = InventoryContents s ++ [e]
    /\ peek (Objects s') e = Some new
    /\ ID new = ID it
    /\ ItemNumericData new = ItemNumericData it
    /\ OwningInventory new = Some (This s)
    /\ (forall q, q <> e -> is_Some (peek (Objects s) q) ->
        peek (Objects s') q = peek (Objects s) q)
    /\ (flagged it = true -> e = p /\ flagged new = false)
    /\ (flagged it = false ->
        e = Some (length (Objects s)) /\ peek (Objects s') p = Some it
        /\ bIsCopy new = true).
Proof.
  intros H. exists (added (entry s p it) (instance s n it) (objects_after s p n it) s),
              (entry s p it), (instance s n it).
  split; [by apply AddNewItem_run|].
  unfold added, TArray.Add. state_simpl.
  split; [done|]. split; [by apply peek_entry|].
  unfold entry, instance, objects_after, flagged.
  destruct (bIsCopy it || bIsPickup it) eqn:Hf.
  - destruct (placed_fields (This s) n (ResetItemFlags it)) as (-> & -> & -> & Hc & Hp).
    repeat split; try done.
    + intros q Hq _. by apply peek_poke_ne.
    + by rewrite Hc, Hp.
  - destruct (placed_fields (This s) n (CreateItemCopy it)) as (-> & -> & -> & Hc & Hp).
    repeat split; try done.
    + intros q _ [y Hy]. rewrite Hy. by apply peek_grow.
    + by apply peek_grow.
Qed.

Lemma AddNewItem_frame_witness :
  exists s' new,
    AddNewItem (Some 2%nat) 1 Stock.shelf = Ok tt s'
    /\ InventoryContents s' = InventoryContents Stock.shelf ++ [Some 3%nat]
    /\ peek (Objects s') (Some 3%nat) = Some new
    /\ ID new = ID Sample.held_sword
    /\ peek (Objects s') (Some 2%nat) = Some Sample.held_sword.
Proof.
  destruct (AddNewItem_frame (Some 2%nat) 1 Sample.held_sword Stock.shelf eq_refl)
    as (s' & e & new & Hrun & Hc & Hnew & Hid & _ & _ & _ & _ & Hcopy).
  destruct (Hcopy eq_refl) as (-> & Hsame & _).
  by exists s', new.
Defined.

(** X12.  [AddNewItem] checks no capacity: on an item that is there it
    always appends one entry, so in a container whose slots are all
    taken it completes and leaves more entries than SlotsCapacity. *)
Theorem AddNewItem_ignores_slots p n it s :
  peek (Objects s) p = Some it ->
  TArray.Num (InventoryContents s) = InventorySlotsCapacity s ->
  exists s',
    AddNewItem p n s = Ok tt s'
    /\ length (InventoryContents s') = S (length (InventoryContents s))
    /\ InventorySlotsCapacity s' = InventorySlotsCapacity s
    /\ ~ SlotsInvariant s'.
Proof.
  intros H Hfull. rewrite (AddNewItem_run _ _ _ _ H).
  eexists. split; [reflexivity|].
  unfold SlotsInvariant, added, TArray.Add, TArray.Num in *. state_simpl.
  rewrite length_app. simpl. repeat split; lia.
Qed.

Lemma AddNewItem_ignores_slots_witness :
  exists s',
    AddNewItem (Some 0%nat) 1 (Sample.holding Sample.held_sword 1 (of_int32 100)) = Ok tt s'
    /\ length (InventoryContents s') = 2%nat
    /\ InventorySlotsCapacity s' = 1.
Proof.
  destruct (AddNewItem_ignores_slots (Some 0%nat) 1 Sample.held_sword
              (Sample.holding Sample.held_sword 1 (of_int32 100)) eq_refl eq_refl)
    as (s' & Hrun & Hlen & Hcap & _).
  by exists s'.
Defined.
(** ** Removing a whole stack *)

Lemma RemoveSingle_gone c p : NoDup c -> p ∉ TArray.RemoveSingle c p.
Proof.
  induction 1 as [|x c Hx Hnd IH]; simpl; [apply not_elem_of_nil|].
  case_bool_decide as Heq.
  - by subst x.
  - apply not_elem_of_cons. by split; [congruence|].
Qed.

Lemma RemoveSingle_other c p q : q <> p -> q ∈ c -> q ∈ TArray.RemoveSingle c p.
Proof.
  intros Hne. induction c as [|x c IH]; simpl; [done|].
  intros [->|Hin]%elem_of_cons.
  - rewrite bool_decide_eq_false_2 by done. by left.
  - case_bool_decide; [done|]. right. by apply IH.
Qed.

(** X13.  The way to take a whole stack out.  For a stackable item with
    [0 <= quantity <= MaxStackSize], in Contents without a repeated
    entry, [RemoveAmountOfItem] of the whole quantity returns that
    quantity and leaves the stack with quantity 0, still in Contents if
    it was; [RemoveSingleInstanceOfItem] after it ends with the item
    out of Contents, the other entries and their objects as they were,
    and TotalWeight the float difference of the TotalWeight of before
    and the stack weight. *)
Theorem drain_then_evict p it s :
  peek (Objects s) p = Some it ->
  NoDup (InventoryContents s) ->
  regular it = true ->
  exists s1 s2,
    RemoveAmountOfItem p (Quantity it) s = Ok (Quantity it) s1
    /\ (Quantity <$> peek (Objects s1) p) = Some 0
    /\ InventoryContents s1 = InventoryContents s
    /\ RemoveSingleInstanceOfItem p s1 = Ok tt s2
    /\ (p ∉ InventoryContents s2)
    /\ (forall q, q <> p -> q ∈ InventoryContents s ->
        q ∈ InventoryContents s2 /\ peek (Objects s2) q = peek (Objects s) q)
    /\ InventoryTotalWeight s2
       = fsub (InventoryTotalWeight s) (GetItemStackWeight it).
Proof.
  intros H Hnd [Hst Hq]%regular_spec.
  pose proof (RemoveAmountOfItem_run p (Quantity it) it s H) as Hrun.
  rewrite Z.min_id in Hrun.
  exists (removed p it (Quantity it) s). eexists.
  split; [exact Hrun|].
  unfold removed. state_simpl. rewrite Z.min_id, Z.sub_diag.
  split.
  { rewrite (peek_poke_eq _ _ _ _ H). simpl.
    f_equal. apply SetQuantity_regular; [done|]. change (wrap32 0) with 0. lia. }
  split; [done|]. split; [reflexivity|]. state_simpl.
  split; [by apply RemoveSingle_gone|]. split; [|done].
  intros q Hne Hin. split; [by apply RemoveSingle_other|].
  by apply peek_poke_ne.
Qed.

Lemma drain_then_evict_witness :
  exists s1 s2,
    RemoveAmountOfItem (Some 0%nat) 5 (Sample.holding Sample.held_potions 4 (of_int32 100))
    = Ok 5 s1
    /\ RemoveSingleInstanceOfItem (Some 0%nat) s1 = Ok tt s2
    /\ InventoryContents s2 = []
    /\ InventoryTotalWeight s2 = of_int32 0.
Proof.
  destruct (drain_then_evict (Some 0%nat) Sample.held_potions
              (Sample.holding Sample.held_potions 4 (of_int32 100)))
    as (s1 & s2 & Hrun1 & _ & _ & Hrun2 & _ & _ & Hw).
  - reflexivity.
  - apply NoDup_singleton.
  - reflexivity.
  - exists s1, s2. split; [exact Hrun1|]. split; [exact Hrun2|].
    split; [|rewrite Hw; vm_compute; reflexivity].
    vm_compute in Hrun1. injection Hrun1 as <-.
    vm_compute in Hrun2. by injection Hrun2 as <-.
Defined.

(** ** Splitting and the weight *)

(** The stack [AddNewItem] makes of [n] units of a stackable item. *)
Lemma instance_stack_weight s n it :
  bIsStackable (ItemNumericData it) = true ->
  0 <= n <= MaxStackSize (ItemNumericData it) ->
  Quantity (instance s n it) = n
  /\ GetItemStackWeight (instance s n it) = fmul (of_int32 n) (GetItemSingleWeight it).
Proof.
  intros Hs Hn.
  assert (Quantity (instance s n it) = n) as Hq.
  { unfold instance, placed. apply SetQuantity_regular;
      by destruct (bIsCopy it || bIsPickup it). }
  split; [done|].
  unfold GetItemStackWeight. rewrite Hq. unfold instance.
  destruct (placed_fields (This s) n
              (if bIsCopy it || bIsPickup it then ResetItemFlags it else CreateItemCopy it))
    as (_ & -> & _).
  by destruct (bIsCopy it || bIsPickup it).
Qed.

Lemma SplitExistingStack_run p k it s :
  peek (Objects s) p = Some it ->
  TArray.Num (InventoryContents s) + 1 <= InventorySlotsCapacity s ->
  let it1 := SetQuantity (wrap32 (Quantity it - Z.min k (Quantity it))) it in
  let s1 := removed p it k s in
  SplitExistingStack p k s
  = Ok tt (added (entry s1 p it1) (instance s1 k it1) (objects_after s1 p k it1) s1).
Proof.
  intros H Hroom it1 s1.
  rewrite (SplitExistingStack_with_room _ _ _ Hroom).
  rewrite bind_run, (RemoveAmountOfItem_run _ _ _ _ H).
  apply AddNewItem_run. unfold s1, removed. state_simpl. eapply peek_poke_eq, H.
Qed.

(** X14.  Splitting takes off TotalWeight what it puts back: for a
    stackable item with [0 <= k <= quantity <= MaxStackSize], whatever
    its flags, [SplitExistingStack] completes; without a free slot
    TotalWeight is as it was, and with one it is [(T - y) + y], the
    difference and the sum being those of floats, where [T] is the
    TotalWeight of before and [y] the float product of [k] and the
    single weight. *)
Theorem SplitExistingStack_moves_weight p k it s :
  peek (Objects s) p = Some it ->
  regular it = true ->
  0 <= k <= Quantity it ->
  let y := fmul (of_int32 k) (GetItemSingleWeight it) in
  exists s',
    SplitExistingStack p k s = Ok tt s'
    /\ (TArray.Num (InventoryContents s) + 1 > InventorySlotsCapacity s ->
        InventoryTotalWeight s' = InventoryTotalWeight s)
    /\ (TArray.Num (InventoryContents s) + 1 <= InventorySlotsCapacity s ->
        InventoryTotalWeight s' = fadd (fsub (InventoryTotalWeight s) y) y).
Proof.
  intros H [Hst Hq]%regular_spec Hk y.
  destruct (Z_le_gt_dec (TArray.Num (InventoryContents s) + 1)
              (InventorySlotsCapacity s)) as [Hroom|Hfull].
  2:{ rewrite (SplitExistingStack_without_room _ _ _ Hfull). exists s.
      split; [done|]. split; [done | lia]. }
  rewrite (SplitExistingStack_run _ _ _ _ H Hroom). cbv zeta.
  eexists. split; [reflexivity|]. split; [lia|]. intros _.
  unfold added. state_simpl.
  destruct (instance_stack_weight (removed p it k s) k
              (SetQuantity (wrap32 (Quantity it - Z.min k (Quantity it))) it)) as [_ ->].
  - by rewrite SetQuantity_data.
  - rewrite SetQuantity_data. lia.
  - unfold removed. state_simpl. by rewrite SetQuantity_weight, Z.min_l by lia.
Qed.

Lemma SplitExistingStack_moves_weight_witness :
  exists s',
    SplitExistingStack (Some 1%nat) 2 Stock.shelf = Ok tt s'
    /\ InventoryTotalWeight s' = of_int32 160.
Proof.
  destruct (SplitExistingStack_moves_weight (Some 1%nat) 2 Sample.held_potions Stock.shelf)
    as (s' & Hrun & _ & Hw).
  - reflexivity.
  - reflexivity.
  - split; by vm_compute.
  - exists s'. split; [exact Hrun|]. rewrite Hw by (by vm_compute).
    vm_compute. reflexivity.
Defined.

(** X15.  [SplitExistingStack] does not compare the amount with the
    quantity.  For a stackable item, neither copy nor pickup, with
    [0 <= quantity < k <= MaxStackSize] and a free slot, the split
    empties the old stack and appends a stack of [k] units: there are
    [k - quantity] units more than before.  TotalWeight has lost the
    float weight of [quantity] units and gained the float weight of [k]
    units. *)
Theorem SplitExistingStack_beyond_quantity p k it s :
  peek (Objects s) p = Some it ->
  bIsStackable (ItemNumericData it) = true ->
  flagged it = false ->
  0 <= Quantity it < k ->
  k <= MaxStackSize (ItemNumericData it) ->
  TArray.Num (InventoryContents s) + 1 <= InventorySlotsCapacity s ->
  exists s' a b,
    SplitExistingStack p k s = Ok tt s'
    /\ InventoryContents s' = InventoryContents s ++ [Some (length (Objects s))]
    /\ peek (Objects s') p = Some a /\ Quantity a = 0
    /\ peek (Objects s') (Some (length (Objects s))) = Some b /\ Quantity b = k
    /\ InventoryTotalWeight s'
       = fadd (fsub (InventoryTotalWeight s)
                 (fmul (of_int32 (Quantity it)) (GetItemSingleWeight it)))
           (fmul (of_int32 k) (GetItemSingleWeight it)).
Proof.
  intros H Hst Hflag Hq Hk Hroom.
  rewrite (SplitExistingStack_run _ _ _ _ H Hroom). cbv zeta.
  set (it1 := SetQuantity (wrap32 (Quantity it - Z.min k (Quantity it))) it).
  set (s1 := removed p it k s).
  assert (peek (Objects s1) p = Some it1) as H1.
  { unfold s1, removed. state_simpl. eapply peek_poke_eq, H. }
  assert (Quantity it1 = 0) as Hq1.
  { unfold it1. rewrite Z.min_r, Z.sub_diag by lia. change (wrap32 0) with 0.
    apply SetQuantity_regular; [done | lia]. }
  assert (bIsCopy it1 || bIsPickup it1 = false) as Hflag1.
  { fold (flagged it1). unfold it1. by rewrite flagged_SetQuantity. }
  assert (length (Objects s1) = length (Objects s)) as Hlen.
  { unfold s1, removed. state_simpl. apply poke_length. }
  destruct (instance_stack_weight s1 k it1) as [Hqb Hwb].
  { unfold it1. by rewrite SetQuantity_data. }
  { unfold it1. rewrite SetQuantity_data. lia. }
  exists (added (entry s1 p it1) (instance s1 k it1) (objects_after s1 p k it1) s1),
         it1, (instance s1 k it1).
  split; [reflexivity|].
  unfold added, entry, objects_after, TArray.Add. rewrite Hflag1. state_simpl.
  rewrite Hlen.
  split; [by unfold s1, removed|].
  split; [by apply peek_grow|]. split; [done|].
  split; [rewrite <- Hlen; apply peek_new|]. split; [done|].
  rewrite Hwb. unfold s1, removed, it1. state_simpl.
  by rewrite SetQuantity_weight, Z.min_r by lia.
Qed.

Lemma SplitExistingStack_beyond_quantity_witness :
  exists s' a b,
    SplitExistingStack (Some 0%nat) 8
      (Sample.holding (ResetItemFlags Sample.held_potions) 4 (of_int32 100)) = Ok tt s'
    /\ InventoryContents s' = [Some 0%nat; Some 1%nat]
    /\ peek (Objects s') (Some 0%nat) = Some a /\ Quantity a = 0
    /\ peek (Objects s') (Some 1%nat) = Some b /\ Quantity b = 8
    /\ InventoryTotalWeight s' = of_int32 80.
Proof.
  destruct (SplitExistingStack_beyond_quantity (Some 0%nat) 8
              (ResetItemFlags Sample.held_potions)
              (Sample.holding (ResetItemFlags Sample.held_potions) 4 (of_int32 100)))
    as (s' & a & b & Hrun & Hc & Ha & Hqa & Hb & Hqb & Hw).
  - reflexivity.
  - reflexivity.
  - reflexivity.
  - split; by vm_compute.
  - by vm_compute.
  - by vm_compute.
  - exists s', a, b. repeat split; done.
Defined.

(** X20.  For an item in Contents that is stackable, neither copy nor
    pickup, with [0 <= k <= quantity <= MaxStackSize] and a quantity
    that is an [int32], [SplitExistingStack] with a free slot is
    [RemoveAmountOfItem] followed by [AddNewItem]: afterwards Contents
    has the old entry and a new last entry, a new object of the same
    ID, with quantities [quantity - k] and [k]. *)
Theorem SplitExistingStack_splits p k it i s :
  peek (Objects s) p = Some it ->
  InventoryContents s !! i = Some p ->
  regular it = true ->
  flagged it = false ->
  0 <= k <= Quantity it ->
  Quantity it <= INT_MAX ->
  TArray.Num (InventoryContents s) + 1 <= InventorySlotsCapacity s ->
  exists s' a b,
    SplitExistingStack p k s = Ok tt s'
    /\ SplitExistingStack p k s = (RemoveAmountOfItem p k;; AddNewItem p k) s
    /\ i <> length (InventoryContents s)
    /\ InventoryContents s' !! i = Some p
    /\ InventoryContents s' !! length (InventoryContents s)
       = Some (Some (length (Objects s)))
    /\ peek (Objects s') p = Some a
    /\ peek (Objects s') (Some (length (Objects s))) = Some b
    /\ ID a = ID it /\ ID b = ID it
    /\ Quantity a = Quantity it - k /\ Quantity b = k
    /\ Quantity a + Quantity b = Quantity it.
Proof.
  intros H Hi [Hst Hq]%regular_spec Hflag Hk Hmax Hroom.
  set (it1 := SetQuantity (wrap32 (Quantity it - Z.min k (Quantity it))) it).
  assert (peek (Objects (removed p it k s)) p = Some it1) as H1.
  { unfold removed. state_simpl. eapply peek_poke_eq, H. }
  assert (bIsCopy it1 || bIsPickup it1 = false) as Hflag1.
  { fold (flagged it1). subst it1. by rewrite flagged_SetQuantity. }
  assert (Quantity it1 = Quantity it - k) as Hq1.
  { subst it1. rewrite Z.min_l by lia.
    rewrite wrap32_int32 by (unfold int32, INT_MIN, INT_MAX in *; lia).
    apply SetQuantity_regular; [done | lia]. }
  pose proof (AddNewItem_copy p k it1 _ H1 Hflag1) as Hadd. cbv zeta in Hadd.
  set (new := placed (This (removed p it k s)) k (CreateItemCopy it1)) in *.
  assert (length (Objects (removed p it k s)) = length (Objects s)) as Hlen.
  { unfold removed. state_simpl. apply poke_length. }
  rewrite Hlen in Hadd.
  assert (Quantity new = k) as Hqn.
  { subst new. unfold placed. apply SetQuantity_regular.
    - simpl. subst it1. by rewrite SetQuantity_data.
    - simpl. subst it1. rewrite SetQuantity_data. lia. }
  eexists _, it1, new.
  split.
  { rewrite (SplitExistingStack_with_room _ _ _ Hroom).
    rewrite bind_run, (RemoveAmountOfItem_run _ _ _ _ H). exact Hadd. }
  split; [by apply SplitExistingStack_with_room|].
  unfold added, TArray.Add. state_simpl.
  split; [apply lookup_lt_Some in Hi; lia|].
  split; [by apply lookup_app_l_Some|].
  split.
  { unfold removed. state_simpl. by rewrite list_lookup_middle. }
  split; [by apply peek_grow|].
  split; [rewrite <- Hlen; apply peek_new|].
  split; [subst it1; apply SetQuantity_ID|].
  split.
  { subst new. unfold placed. rewrite SetQuantity_ID. simpl.
    subst it1. apply SetQuantity_ID. }
  repeat split; [done..|lia].
Qed.

Lemma SplitExistingStack_splits_witness :
  exists s' a b,
    SplitExistingStack (Some 0%nat) 2
      (Sample.holding (ResetItemFlags Sample.held_potions) 4 (of_int32 100)) = Ok tt s'
    /\ InventoryContents s' = [Some 0%nat; Some 1%nat]
    /\ peek (Objects s') (Some 0%nat) = Some a
    /\ peek (Objects s') (Some 1%nat) = Some b
    /\ Quantity a = 3 /\ Quantity b = 2.
Proof.
  assert (0 <= 2 <= Quantity (ResetItemFlags Sample.held_potions)) as Hk
    by (split; by vm_compute).
  assert (Quantity (ResetItemFlags Sample.held_potions) <= INT_MAX) as Hmax
    by (by vm_compute).
  assert (TArray.Num [Some 0%nat] + 1 <= 4) as Hroom by (by vm_compute).
  destruct (SplitExistingStack_splits (Some 0%nat) 2
              (ResetItemFlags Sample.held_potions) 0%nat
              (Sample.holding (ResetItemFlags Sample.held_potions) 4 (of_int32 100))
              eq_refl eq_refl eq_refl eq_refl Hk Hmax Hroom)
    as (s' & a & b & Hrun & _ & _ & _ & _ & Ha & Hb & _ & _ & Hqa & Hqb & _).
  exists s', a, b. split; [exact Hrun|].
  split; [|by repeat split].
  vm_compute in Hrun. injection Hrun as <-. reflexivity.
Defined.

(** ** Removal and the weight *)

(** X16.  Removing never adds: for an item whose weight is a finite
    number at least 0 and whose quantity is an [int32] at least 0, in a
    container whose TotalWeight is finite, [RemoveAmountOfItem] of an
    amount at least 0 returns between 0 and the amount asked for, at
    most the quantity, and leaves TotalWeight at most what it was. *)
Theorem RemoveAmountOfItem_never_adds p n it s :
  peek (Objects s) p = Some it ->
  0 <= n -> 0 <= Quantity it <= INT_MAX ->
  finite (GetItemSingleWeight it) = true ->
  fle (of_int32 0) (GetItemSingleWeight it) = true ->
  finite (InventoryTotalWeight s) = true ->
  exists r s',
    RemoveAmountOfItem p n s = Ok r s'
    /\ 0 <= r <= n /\ r <= Quantity it
    /\ fle (InventoryTotalWeight s') (InventoryTotalWeight s) = true.
Proof.
  intros H Hn Hq Hfin Hw HT. rewrite (RemoveAmountOfItem_run _ _ _ _ H).
  eexists _, _. split; [reflexivity|]. split; [lia|]. split; [lia|].
  unfold removed. state_simpl.
  apply fsub_le; [done|]. apply fmul_nonneg; [|done..].
  unfold INT_MAX in Hq. lia.
Qed.

Lemma RemoveAmountOfItem_never_adds_witness :
  exists r s',
    RemoveAmountOfItem (Some 1%nat) 7 Stock.shelf = Ok r s'
    /\ 0 <= r <= 7 /\ r <= 5
    /\ fle (InventoryTotalWeight s') (of_int32 160) = true.
Proof.
  apply (RemoveAmountOfItem_never_adds (Some 1%nat) 7 Sample.held_potions Stock.shelf).
  - reflexivity.
  - lia.
  - by vm_compute.
  - by vm_compute.
  - by vm_compute.
  - by vm_compute.
Defined.

(** X17.  [RemoveAmountOfItem] does not ask whether the item is in this
    inventory.  For an item that is there and is not in Contents it
    completes, changes Contents and the weight of Contents in nothing,
    and takes the float weight of the units it removes off
    TotalWeight. *)
Theorem RemoveAmountOfItem_of_a_stranger p n it s :
  peek (Objects s) p = Some it ->
  p ∉ InventoryContents s ->
  exists s',
    RemoveAmountOfItem p n s = Ok (Z.min n (Quantity it)) s'
    /\ InventoryContents s' = InventoryContents s
    /\ ContentsWeight s' = ContentsWeight s
    /\ InventoryTotalWeight s'
       = fsub (InventoryTotalWeight s)
           (fmul (of_int32 (Z.min n (Quantity it))) (GetItemSingleWeight it)).
Proof.
  intros H Hnotin. rewrite (RemoveAmountOfItem_run _ _ _ _ H).
  eexists. split; [reflexivity|].
  unfold ContentsWeight, removed. state_simpl.
  split; [done|]. split; [|done]. by apply stack_weights_poke_notin.
Qed.

Lemma RemoveAmountOfItem_of_a_stranger_witness :
  exists s',
    RemoveAmountOfItem (Some 0%nat) 1
      (Sample.empty_inventory [Sample.held_potions] 4 (of_int32 100)) = Ok 1 s'
    /\ InventoryContents s' = []
    /\ ContentsWeight s' = of_int32 0
    /\ InventoryTotalWeight s' = of_int32 (-10).
Proof.
  destruct (RemoveAmountOfItem_of_a_stranger (Some 0%nat) 1 Sample.held_potions
              (Sample.empty_inventory [Sample.held_potions] 4 (of_int32 100)))
    as (s' & Hrun & Hc & Hcw & Hw).
  - reflexivity.
  - apply not_elem_of_nil.
  - exists s'. split; [exact Hrun|]. split; [exact Hc|].
    split; [exact Hcw|]. rewrite Hw. vm_compute. reflexivity.
Defined.

(** ** Splitting a copy *)

(** X18.  When the item still has its copy or pickup flag, as every
    entry that [AddNewItem] created as a copy has, [SplitExistingStack]
    with a free slot creates no object: it appends the pointer it was
    given, so that an item that was in Contents is in Contents twice. *)
Theorem SplitExistingStack_of_flagged_item p k it s :
  peek (Objects s) p = Some it ->
  flagged it = true ->
  TArray.Num (InventoryContents s) + 1 <= InventorySlotsCapacity s ->
  exists s',
    SplitExistingStack p k s = Ok tt s'
    /\ InventoryContents s' = InventoryContents s ++ [p]
    /\ length (Objects s') = length (Objects s)
    /\ (p ∈ InventoryContents s -> ~ NoDup (InventoryContents s')).
Proof.
  intros H Hflag Hroom.
  rewrite (SplitExistingStack_run _ _ _ _ H Hroom). cbv zeta.
  eexists. split; [reflexivity|].
  unfold added, entry, objects_after, TArray.Add.
  fold (flagged (SetQuantity (wrap32 (Quantity it - Z.min k (Quantity it))) it)).
  rewrite flagged_SetQuantity, Hflag. state_simpl.
  split; [by unfold removed|]. split.
  - rewrite poke_length. unfold removed. state_simpl. apply poke_length.
  - unfold removed. state_simpl. intros Hin Hnd.
    apply NoDup_app in Hnd as (_ & Hdisj & _).
    apply (Hdisj p Hin). by apply list_elem_of_singleton.
Qed.

Lemma SplitExistingStack_of_flagged_item_witness :
  exists s',
    SplitExistingStack (Some 1%nat) 2 Stock.shelf = Ok tt s'
    /\ InventoryContents s' = [Some 0%nat; Some 1%nat; Some 2%nat; Some 1%nat]
    /\ length (Objects s') = 3%nat.
Proof.
  destruct (SplitExistingStack_of_flagged_item (Some 1%nat) 2 Sample.held_potions
              Stock.shelf eq_refl eq_refl) as (s' & Hrun & Hc & Hlen & _).
  - by vm_compute.
  - by exists s'.
Defined.

(** ** Operations that read the item *)

(** X19.  With an item that designates no object, null included, every
    operation that reads the item fails: [RemoveAmountOfItem],
    [AddNewItem], [HandleNonStackableItems] and the two calculations
    always, [SplitExistingStack] when a slot is free, [HandleAddItem]
    when the component has an owner. *)
Theorem operations_need_the_item p n s :
  peek (Objects s) p = None ->
  RemoveAmountOfItem p n s = Fault
  /\ AddNewItem p n s = Fault
  /\ HandleNonStackableItems p s = Fault
  /\ CalculateWeightAddAmount p n s = Fault
  /\ CalculateNumberForFullStack p n s = Fault
  /\ (TArray.Num (InventoryContents s) + 1 <= InventorySlotsCapacity s ->
      SplitExistingStack p n s = Fault)
  /\ (nonnull (Owner s) = true -> HandleAddItem p s = Fault).
Proof.
  intros H.
  assert (forall B (k : UItemBase -> M B), (load p ≫= k) s = Fault) as Hload.
  { intros B k. by rewrite bind_run, (load_fault _ _ H). }
  assert (RemoveAmountOfItem p n s = Fault) as Hrem by apply Hload.
  repeat split; try apply Hload; try done.
  - intros Hroom. by rewrite (SplitExistingStack_with_room _ _ _ Hroom), bind_run, Hrem.
  - intros Ho. by apply HandleAddItem_fault.
Qed.

Lemma operations_need_the_item_witness :
  RemoveAmountOfItem None 1 Stock.shelf = Fault
  /\ AddNewItem None 1 Stock.shelf = Fault
  /\ HandleNonStackableItems None Stock.shelf = Fault
  /\ CalculateWeightAddAmount None 1 Stock.shelf = Fault
  /\ CalculateNumberForFullStack None 1 Stock.shelf = Fault
  /\ SplitExistingStack None 1 Stock.shelf = Fault
  /\ HandleAddItem None Stock.shelf = Fault.
Proof.
  destruct (operations_need_the_item None 1 Stock.shelf eq_refl)
    as (H1 & H2 & H3 & H4 & H5 & H6 & H7).
  split; [exact H1|]. split; [exact H2|]. split; [exact H3|].
  split; [exact H4|]. split; [exact H5|]. split.
  - apply H6. by vm_compute.
  - by apply H7.
Defined.
